(** * Recurrence rules, triggers and the job table of the reminder scheduler

    A shallow embedding of the scheduling core of [src/telegram_listener.py]:
    [normalize_rrule], [parse_rrule_to_interval_kwargs],
    [schedule_job_for_task], [persist_task_and_schedule] and
    [restore_saved_reminders_from_db], together with the Python string
    primitives they are written with.

    Conventions.
    - Python [str] values are [string]s; the functions below act on the ASCII
      range (case mapping and white space), every other character is left
      as it is.
    - Python [int] is unbounded: [Z].  Where an integer crosses into a
      library that bounds it (an SQLite parameter, a [timedelta], a date),
      the bound and the exception are written out.
    - Time is a clock reading in whole seconds, fixed during one call.
    - A Python exception is a value of [exn]; code that can raise lives in
      [result] (pure code) or in the state monad [M] (code that touches the
      scheduler, the database or the clock).
    - The job store of the background scheduler is a finite map from job id
      to job, as APScheduler's memory job store is. *)

From Stdlib Require Import ZArith Ascii String List Lia.
From stdpp Require Import gmap strings pretty list fin_maps.

Local Open Scope string_scope.
Local Open Scope Z_scope.
Set Warnings "-clear-no-such-hyp".

(** ** Exceptions *)

Inductive exn : Set :=
| ValueError
| OverflowError
| JSONDecodeError
| JobLookupError
| ConflictingIdError.

Inductive result (A : Type) : Type :=
| Ok (a : A)
| Raise (e : exn).
Arguments Ok {A} a.
Arguments Raise {A} e.

Global Instance result_ret : MRet result := @Ok.
Global Instance result_bind : MBind result := λ A B f m,
  match m with
  | Ok a => f a
  | Raise e => Raise e
  end.

(** [try: body except Exception: handler] for pure code. *)
Definition try_except {A} (body : result A) (handler : exn → result A) : result A :=
  match body with
  | Ok a => Ok a
  | Raise e => handler e
  end.

(** ** Python string primitives *)

Module PyStr.

(** [c.isspace()] on the ASCII range: TAB..CR, FS..US and the blank. *)
Definition is_space (c : ascii) : bool :=
  let n := N_of_ascii c in
  ((9 <=? n) && (n <=? 13) || (28 <=? n) && (n <=? 32))%N.

Definition upper_char (c : ascii) : ascii :=
  let n := N_of_ascii c in
  if ((97 <=? n) && (n <=? 122))%N then ascii_of_N (n - 32) else c.

(** [s.upper()] *)
Fixpoint upper (s : string) : string :=
  match s with
  | EmptyString => EmptyString
  | String c s' => String (upper_char c) (upper s')
  end.

Fixpoint lstrip (s : string) : string :=
  match s with
  | EmptyString => EmptyString
  | String c s' => if is_space c then lstrip s' else s
  end.

Fixpoint rstrip (s : string) : string :=
  match s with
  | EmptyString => EmptyString
  | String c s' =>
      match rstrip s' with
      | EmptyString => if is_space c then EmptyString else String c EmptyString
      | r => String c r
      end
  end.

(** [s.strip()] *)
Definition strip (s : string) : string := rstrip (lstrip s).

(** [s.startswith(p)] *)
Definition startswith (s p : string) : bool := String.prefix p s.

(** [p in s] for strings: [p] occurs in [s] as a substring. *)
Fixpoint contains (p s : string) : bool :=
  startswith s p ||
  match s with
  | EmptyString => false
  | String _ s' => contains p s'
  end.

(** [c in s] for a single character. *)
Fixpoint has_char (c : ascii) (s : string) : bool :=
  match s with
  | EmptyString => false
  | String d s' => if decide (d = c) then true else has_char c s'
  end.

Fixpoint skip (n : nat) (s : string) : string :=
  match n, s with
  | S k, String _ s' => skip k s'
  | _, _ => s
  end.

(** Left-to-right substitution of non-overlapping matches, the scan that
    [str.replace] and [re.sub] share: [matcher s] is the length of the match
    that starts at the head of [s], if there is one; [skip_] counts the
    characters of the current match still to be dropped. Every matcher used
    below only reports matches of positive length. *)
Fixpoint sub_go (matcher : string → option nat) (new : string)
    (skip_ : nat) (s : string) : string :=
  match s with
  | EmptyString => EmptyString
  | String c s' =>
      match skip_ with
      | S k => sub_go matcher new k s'
      | O =>
          match matcher s with
          | Some n => new +:+ sub_go matcher new (Nat.pred n) s'
          | None => String c (sub_go matcher new O s')
          end
      end
  end.

Definition literal (old : string) (s : string) : option nat :=
  if startswith s old then Some (String.length old) else None.

(** [s.replace(old, new)], [old] not empty. *)
Definition replace (old new s : string) : string :=
  sub_go (literal old) new O s.

(** [s.split(sep)] for a one-character separator. *)
Fixpoint split (sep : ascii) (s : string) : list string :=
  match s with
  | EmptyString => [EmptyString]
  | String c s' =>
      if decide (c = sep) then EmptyString :: split sep s'
      else match split sep s' with
           | x :: xs => String c x :: xs
           | [] => [String c EmptyString]
           end
  end.

(** [s.split(sep, 1)] when [sep in s]: the text before and after the first
    separator; [None] when there is no separator. *)
Fixpoint split1 (sep : ascii) (s : string) : option (string * string) :=
  match s with
  | EmptyString => None
  | String c s' =>
      if decide (c = sep) then Some (EmptyString, s')
      else match split1 sep s' with
           | Some (a, b) => Some (String c a, b)
           | None => None
           end
  end.

(** Number of leading characters different from [c]. *)
Fixpoint span_not (c : ascii) (s : string) : nat :=
  match s with
  | EmptyString => O
  | String d s' => if decide (d = c) then O else S (span_not c s')
  end.

Definition truthy (s : string) : bool :=
  match s with
  | EmptyString => false
  | _ => true
  end.

(** *** Further primitives, used by the command handlers *)

Definition lower_char (c : ascii) : ascii :=
  let n := N_of_ascii c in
  if ((65 <=? n) && (n <=? 90))%N then ascii_of_N (n + 32) else c.

(** [s.lower()] *)
Fixpoint lower (s : string) : string :=
  match s with
  | EmptyString => EmptyString
  | String c s' => String (lower_char c) (lower s')
  end.

(** [s.capitalize()]: first character upper case, the rest lower case. *)
Definition capitalize (s : string) : string :=
  match s with
  | EmptyString => EmptyString
  | String c s' => String (upper_char c) (lower s')
  end.

(** [s.split()]: the maximal runs of characters that are not white space. *)
Fixpoint words (s : string) : list string :=
  match s with
  | EmptyString => []
  | String c s' =>
      if is_space c then words s'
      else match s' with
           | EmptyString => [String c EmptyString]
           | String d _ =>
               if is_space d then String c EmptyString :: words s'
               else match words s' with
                    | w :: ws => String c w :: ws
                    | [] => [String c EmptyString]
                    end
           end
  end.

(** [s[:n]] *)
Fixpoint take (n : nat) (s : string) : string :=
  match n, s with
  | S k, String c s' => String c (take k s')
  | _, _ => EmptyString
  end.

(** [s[i:j]] for [0 <= i <= j] *)
Definition slice (i j : nat) (s : string) : string := take (j - i) (skip i s).

End PyStr.

(** ** The builtin [int] on strings

    [int(s)] in base ten: surrounding white space is dropped, one sign is
    allowed, and the digits may be grouped by single underscores.  Anything
    else raises [ValueError].  The interpreter's configurable cap on the
    number of digits of a literal is an interpreter setting, not part of the
    program, and is left out. *)

Definition digit_of (c : ascii) : option Z :=
  let n := N_of_ascii c in
  if ((48 <=? n) && (n <=? 57))%N then Some (Z.of_N (n - 48)) else None.

Fixpoint int_digits (acc : Z) (after_digit : bool) (s : string) : option Z :=
  match s with
  | EmptyString => if after_digit then Some acc else None
  | String c s' =>
      match digit_of c with
      | Some d => int_digits (10 * acc + d) true s'
      | None =>
          if decide (c = "_"%char) then
            if after_digit then int_digits acc false s' else None
          else None
      end
  end.

Definition py_int (s : string) : result Z :=
  let body (sign : Z) (t : string) :=
    match int_digits 0 false t with
    | Some v => Ok (sign * v)
    | None => Raise ValueError
    end in
  match PyStr.strip s with
  | String "-" t => body (-1) t
  | String "+" t => body 1 t
  | t => body 1 t
  end.

(** ** [normalize_rrule] *)

(** The match of [;?UNTIL=[^;]+] at the head of [s]: an optional semicolon,
    the literal [UNTIL=], then at least one character up to the next
    semicolon (greedy). *)
Definition until_at (lit s : string) : option nat :=
  if PyStr.startswith s lit then
    match PyStr.skip (String.length lit) s with
    | EmptyString => None
    | String c _ as v =>
        if decide (c = ";"%char) then None
        else Some (String.length lit + PyStr.span_not ";" v)%nat
    end
  else None.

Definition until_match (s : string) : option nat :=
  match until_at ";UNTIL=" s with
  | Some n => Some n
  | None => until_at "UNTIL=" s
  end.

(** [re.sub(r";?UNTIL=[^;]+", "", rr)] *)
Definition re_sub_until (rr : string) : string :=
  PyStr.sub_go until_match "" O rr.

Definition normalize_rrule (rr : string) : string :=
  if negb (PyStr.truthy rr) then rr
  else
    let rr := PyStr.strip rr in
    let rr := PyStr.replace "FREQ=MINUTE" "FREQ=MINUTELY" rr in
    let rr := PyStr.replace "FREQ=MINUTES" "FREQ=MINUTELY" rr in
    let rr := PyStr.replace "FREQ=HOUR" "FREQ=HOURLY" rr in
    let rr := PyStr.replace "FREQ=HOURS" "FREQ=HOURLY" rr in
    let rr := PyStr.replace "FREQ=DAY" "FREQ=DAILY" rr in
    let rr := PyStr.replace "FREQ=DAYS" "FREQ=DAILY" rr in
    let rr := PyStr.replace "EVERYDAY" "" rr in
    let rr := re_sub_until rr in
    if negb (PyStr.startswith rr "RRULE:") then "RRULE:" +:+ rr else rr.

(** ** Triggers, parse results and jobs *)

(** The keyword of [IntervalTrigger] / [timedelta] a frequency maps to. *)
Inductive IntervalUnit : Set := seconds | minutes | hours | days | weeks.

Record CronSpec : Set := MkCron {
  day_of_week : string;
  hour : Z;
  minute : Z
}.

(** What [parse_rrule_to_interval_kwargs] returns besides [None]: a cron
    trigger object, or the keyword dictionary [{unit: interval}]. *)
Inductive ParseValue : Set :=
| PCron (c : CronSpec)
| PKwargs (u : IntervalUnit) (n : Z).

(** The three APScheduler triggers; a run date is a clock reading in
    seconds. *)
Inductive Trigger : Set :=
| DateTrigger (run_date : Z)
| IntervalTrigger (u : IntervalUnit) (n : Z)
| CronTrigger (c : CronSpec).

(** JSON values: the task parameters ([params], [internal]). *)
#[warnings="-register-all"] Inductive json : Set :=
| JNull
| JBool (b : bool)
| JNum (z : Z)
| JStr (s : string)
| JArr (l : list json)
| JObj (l : list (string * json)).

(** A scheduled job: its trigger and the parameters its callback captured
    ([_run_plan(p=params)]). *)
Record Job : Set := MkJob {
  job_trigger : Trigger;
  job_params : json
}.

(** A row of the [task] table. [None] is SQL NULL. *)
Record TaskRow : Set := MkTaskRow {
  row_id : Z;
  row_user_id : Z;
  row_type : string;
  row_params_json : option string;
  row_schedule_rule : option string;
  row_enabled : Z
}.

(** Everything the scheduling code reads or writes: the job store of the
    global [scheduler], the [task] and [user_registry] tables, the messages
    handed to [send_message], and the clock [datetime.now(TZ)] reads. *)
Record World : Type := MkWorld {
  jobs : gmap string Job;
  task : list TaskRow;
  user_registry : gmap string Z;
  outbox : list (string * string);
  clock : Z
}.

Definition set_jobs (f : gmap string Job → gmap string Job) (w : World) : World :=
  MkWorld (f (jobs w)) (task w) (user_registry w) (outbox w) (clock w).
Definition set_task (f : list TaskRow → list TaskRow) (w : World) : World :=
  MkWorld (jobs w) (f (task w)) (user_registry w) (outbox w) (clock w).
Definition set_outbox (f : list (string * string) → list (string * string))
    (w : World) : World :=
  MkWorld (jobs w) (task w) (user_registry w) (f (outbox w)) (clock w).


(** ** The monad of stateful code that may raise *)

Definition M (A : Type) : Type := World → result A * World.

Global Instance M_ret : MRet M := λ A a w, (Ok a, w).
Global Instance M_bind : MBind M := λ A B f m w,
  match m w with
  | (Ok a, w') => f a w'
  | (Raise e, w') => (Raise e, w')
  end.

Definition lift {A} (r : result A) : M A := λ w, (r, w).

(** [try: body except Exception: handler]; what [body] did to the world
    before raising stays done. *)
Definition try_exceptM {A} (body : M A) (handler : exn → M A) : M A := λ w,
  match body w with
  | (Ok a, w') => (Ok a, w')
  | (Raise e, w') => handler e w'
  end.

(** [for x in l: body(x)] *)
Fixpoint for_each {A} (l : list A) (body : A → M unit) : M unit :=
  match l with
  | [] => mret tt
  | x :: l' => body x ;; for_each l' body
  end.

(** *** The scheduler's job store *)

Definition get_job (job_id : string) : M (option Job) := λ w,
  (Ok (jobs w !! job_id), w).

(** [scheduler.remove_job] raises [JobLookupError] for an unknown id. *)
Definition remove_job (job_id : string) : M unit := λ w,
  match jobs w !! job_id with
  | Some _ => (Ok tt, set_jobs (delete job_id) w)
  | None => (Raise JobLookupError, w)
  end.

(** [scheduler.add_job(func, trigger=..., id=job_id, replace_existing=...)] *)
Definition add_job (j : Job) (job_id : string) (replace_existing : bool) : M unit := λ w,
  match jobs w !! job_id with
  | Some _ =>
      if replace_existing then (Ok tt, set_jobs (insert job_id j) w)
      else (Raise ConflictingIdError, w)
  | None => (Ok tt, set_jobs (insert job_id j) w)
  end.

(** [datetime.datetime.now(TZ)], in whole seconds.  [clock] is the reading
    during one call; that later calls read a later time is [set_clock]. *)
Definition datetime_now : M Z := λ w, (Ok (clock w), w).

(** *** The database and the messenger *)

Definition lastrowid (rows : list TaskRow) : Z :=
  foldr (λ r acc, Z.max (row_id r) acc) 0 rows.

(** [SELECT id FROM user_registry WHERE chat_id=?] then [fetchone()] *)
Definition select_user (chat_id : string) : M (option Z) := λ w,
  (Ok (user_registry w !! chat_id), w).

(** [SELECT id, params_json, schedule_rule FROM task WHERE enabled=1] *)
Definition select_enabled_tasks : M (list TaskRow) := λ w,
  (Ok (List.filter (λ r, row_enabled r =? 1) (task w)), w).

Definition send_message (chat_id text : string) : M unit := λ w,
  (Ok tt, set_outbox (λ o, (o ++ [(chat_id, text)])%list) w).

(** ** Frequencies and decimal numerals *)

(** The five keys of the parser's [mapping] table, with the rule token and
    the [IntervalTrigger] keyword of each. *)
Inductive Freq : Set := SECONDLY | MINUTELY | HOURLY | DAILY | WEEKLY.

Definition freq_token (X : Freq) : string :=
  match X with
  | SECONDLY => "SECONDLY"
  | MINUTELY => "MINUTELY"
  | HOURLY => "HOURLY"
  | DAILY => "DAILY"
  | WEEKLY => "WEEKLY"
  end.

Definition freq_unit (X : Freq) : IntervalUnit :=
  match X with
  | SECONDLY => seconds
  | MINUTELY => minutes
  | HOURLY => hours
  | DAILY => days
  | WEEKLY => weeks
  end.

Definition is_digit (c : ascii) : bool :=
  match digit_of c with
  | Some _ => true
  | None => false
  end.

(** [s] is made of the digits 0..9 only. *)
Fixpoint all_digits (s : string) : bool :=
  match s with
  | EmptyString => true
  | String c s' => is_digit c && all_digits s'
  end.

(** ** Instances of the library parameters

    Used to run the code on concrete inputs. *)

(** The day names of APScheduler's cron fields. *)
Definition cron_day_names : list string :=
  ["mon"; "tue"; "wed"; "thu"; "fri"; "sat"; "sun"].

(** The two-letter day codes of an iCalendar BYDAY value. *)
Definition rrule_day_codes : list string :=
  ["MO"; "TU"; "WE"; "TH"; "FR"; "SA"; "SU"].

(** The argument check of [CronTrigger] on what the parser hands it: the
    day of week is [*] or one of the day names in any letter case, the hour
    lies within 0..23 and the minute within 0..59.  The library also takes
    numbers, ranges, steps and lists as a day of week; this instance refuses
    them, and no rule it is run on below carries one. *)
Definition cron_checks (d : string) (h m : Z) : bool :=
  (String.eqb d "*" || existsb (String.eqb (PyStr.lower d)) cron_day_names)
  && ((0 <=? h) && (h <=? 23))
  && ((0 <=? m) && (m <=? 59)).

Definition unit_seconds (u : IntervalUnit) : Z :=
  match u with
  | seconds => 1
  | minutes => 60
  | hours => 3600
  | days => 86400
  | weeks => 604800
  end.

(** The range check of [datetime.timedelta], which [IntervalTrigger] builds
    from its keywords: the normalised day count has magnitude at most
    999999999, otherwise [OverflowError]. *)
Definition timedelta_in_range (u : IntervalUnit) (n : Z) : bool :=
  let d := (n * unit_seconds u) `div` 86400 in
  (-999999999 <=? d) && (d <=? 999999999).

(** A decoder that knows the empty object and the empty array and rejects
    every other text.  Where it rejects a text below, that text is not JSON,
    so [json.loads] raises on it as well. *)
Definition loads_empty (s : string) : option json :=
  if decide (s = "{}") then Some (JObj [])
  else if decide (s = "[]") then Some (JArr [])
  else None.

(** An encoder that writes every value as the empty object: what the stored
    text is plays no part in scheduling. *)
Definition dumps_empty (v : json) : string := "{}".

(** ** What the libraries do with the integers they are given *)

(** The trigger [IntervalTrigger(timezone=TZ, **{u: n})] holds once built:
    its interval is the [timedelta] of n units u, and the constructor
    replaces an interval of length zero by one second. *)
Definition interval_trigger (u : IntervalUnit) (n : Z) : Trigger :=
  if n =? 0 then IntervalTrigger seconds 1 else IntervalTrigger u n.

(** [sqlite3] binds a Python [int] as a signed 64-bit integer and raises
    [OverflowError] on any other. *)
Definition sqlite_int (n : Z) : bool :=
  (- 2 ^ 63 <=? n) && (n <? 2 ^ 63).

(** Clock readings count the seconds since [datetime.min] on the wall clock
    of [TZ]; this is the last one a [datetime] holds (the end of year 9999). *)
Definition datetime_max : Z := 3652059 * 86400 - 1.

(** [now + datetime.timedelta(seconds=delta)] for a delay the user chose:
    [OverflowError] when the [timedelta] or the resulting date is out of
    range.  (The fixed minute that [schedule_job_for_task] adds to the
    reading of a running clock stays far from that bound and is written as a
    plain sum.) *)
Definition datetime_add (now delta : Z) : result Z :=
  if timedelta_in_range seconds delta && (0 <=? now + delta) && (now + delta <=? datetime_max)
  then Ok (now + delta)
  else Raise OverflowError.

(** ** The world at startup *)

(** A freshly started process: no job, no row, clock at [now]. *)
Definition startup (rows : list TaskRow) (now : Z) : World :=
  MkWorld ∅ rows ∅ [] now.

(** ** Code around the scheduler: rule builders, deletion, offsets, notes, export *)

(** *** The rules the [/remind] handler builds *)

(** [RRULE:FREQ=X;INTERVAL=n] *)
Definition interval_rule (X : Freq) (n : Z) : string :=
  "RRULE:FREQ=" +:+ freq_token X +:+ ";INTERVAL=" +:+ pretty n.

(** The [if "second" in unit: ... else: ...] chain of the reminder branch of
    [process_message]; [unit_] is the unit the pattern captured, [num] the
    number before it. *)
Definition explicit_rrule (unit_ : string) (num : Z) : string :=
  if PyStr.contains "second" unit_ then "RRULE:FREQ=SECONDLY;INTERVAL=" +:+ pretty num
  else if PyStr.contains "minute" unit_ then "RRULE:FREQ=MINUTELY;INTERVAL=" +:+ pretty num
  else if PyStr.contains "hour" unit_ then "RRULE:FREQ=HOURLY;INTERVAL=" +:+ pretty num
  else if PyStr.contains "day" unit_ then "RRULE:FREQ=DAILY;INTERVAL=" +:+ pretty num
  else "RRULE:FREQ=HOURLY;INTERVAL=1".

(** The same chain in the recurring-order branch, with its own last resort. *)
Definition recurring_order_rrule (unit_ : string) (num : Z) : string :=
  if PyStr.contains "second" unit_ then "RRULE:FREQ=SECONDLY;INTERVAL=" +:+ pretty num
  else if PyStr.contains "minute" unit_ then "RRULE:FREQ=MINUTELY;INTERVAL=" +:+ pretty num
  else if PyStr.contains "hour" unit_ then "RRULE:FREQ=HOURLY;INTERVAL=" +:+ pretty num
  else if PyStr.contains "day" unit_ then "RRULE:FREQ=DAILY;INTERVAL=" +:+ pretty num
  else "RRULE:FREQ=DAILY;INTERVAL=1".

(** The units the reminder pattern captures, each with the frequency it
    stands for. *)
Definition explicit_units : list (string * Freq) :=
  [("second", SECONDLY); ("seconds", SECONDLY);
   ("minute", MINUTELY); ("minutes", MINUTELY);
   ("hour", HOURLY); ("hours", HOURLY);
   ("day", DAILY); ("days", DAILY)].

(** What [normalize_rrule] leaves of a frequency token. *)
Definition scanned_token (X : Freq) : string :=
  match X with
  | MINUTELY => "MINUTELYLY"
  | HOURLY => "HOURLYLY"
  | _ => freq_token X
  end.

(** [if tid:] for the id [persist_task_and_schedule] returns. *)
Definition truthy_id (tid : option Z) : bool :=
  match tid with
  | Some t => negb (t =? 0)
  | None => false
  end.

(** [f"{tid}"] for that id. *)
Definition str_id (tid : option Z) : string :=
  match tid with
  | Some t => pretty t
  | None => "None"
  end.

(** *** The rules the [/emailsummary] handler builds *)

(** The [if ampm == "pm" and hour < 12 ... elif ampm == "am" and hour == 12]
    adjustment; [ampm] is the optional third group of the pattern. *)
Definition to_24h (hour : Z) (ampm : option string) : Z :=
  if bool_decide (ampm = Some "pm") && (hour <? 12) then hour + 12
  else if bool_decide (ampm = Some "am") && (hour =? 12) then 0
  else hour.

(** [weekday_map] *)
Definition weekday_map : list (string * string) :=
  [("monday", "MO"); ("mon", "MO"); ("tuesday", "TU"); ("tue", "TU");
   ("wednesday", "WE"); ("wed", "WE"); ("thursday", "TH"); ("thu", "TH");
   ("friday", "FR"); ("fri", "FR"); ("saturday", "SA"); ("sat", "SA");
   ("sunday", "SU"); ("sun", "SU")].

(** [weekday_map.get(day_token, day_token.upper()[:2])] *)
Definition byday_of (day_token : string) : string :=
  match List.find (λ kv, bool_decide (kv.1 = day_token)) weekday_map with
  | Some kv => kv.2
  | None => PyStr.take 2 (PyStr.upper day_token)
  end.

(** The daily rule ([byday] absent) and the weekly rule of the handler. *)
Definition summary_rrule (byday : option string) (hour minute : Z) : string :=
  match byday with
  | None =>
      "RRULE:FREQ=DAILY;BYHOUR=" +:+ pretty hour +:+ ";BYMINUTE=" +:+ pretty minute
  | Some d =>
      "RRULE:FREQ=WEEKLY;BYDAY=" +:+ d +:+ ";BYHOUR=" +:+ pretty hour
        +:+ ";BYMINUTE=" +:+ pretty minute
  end.

(** The text of a summary rule before its hour. *)
Definition summary_head (byday : option string) : string :=
  match byday with
  | None => "RRULE:FREQ=DAILY;BYHOUR="
  | Some d => "RRULE:FREQ=WEEKLY;BYDAY=" +:+ d +:+ ";BYHOUR="
  end.

Definition summary_days : list (option string) :=
  [None; Some "MO"; Some "TU"; Some "WE"; Some "TH"; Some "FR"; Some "SA"; Some "SU"].

(** [f"{n:02d}"] *)
Definition pad2 (n : Z) : string :=
  if (0 <=? n) && (n <? 10) then "0" +:+ pretty n else pretty n.

(** *** [/delete_reminder] *)

(** [str(e)] in the handler of [/delete_reminder].  The one exception that
    reaches it is the [OverflowError] of [sqlite3], whose text this is; for
    the others the class name stands for the text. *)
Definition str_exn (e : exn) : string :=
  match e with
  | ValueError => "ValueError"
  | OverflowError => "Python int too large to convert to SQLite INTEGER"
  | JSONDecodeError => "JSONDecodeError"
  | JobLookupError => "JobLookupError"
  | ConflictingIdError => "ConflictingIdError"
  end.

Definition disable_row (rid : Z) (r : TaskRow) : TaskRow :=
  if decide (row_id r = rid)
  then MkTaskRow (row_id r) (row_user_id r) (row_type r) (row_params_json r)
         (row_schedule_rule r) 0
  else r.

(** [UPDATE task SET enabled=0 WHERE id=?] with [rid] bound to the
    parameter: binding an id that is no 64-bit integer raises and leaves
    the table alone. *)
Definition disable_task (rid : Z) : M unit := λ w,
  if sqlite_int rid then (Ok tt, set_task (map (disable_row rid)) w)
  else (Raise OverflowError, w).

(** The [/delete_reminder] branch of [process_message]. *)
Definition delete_reminder_command (chat_id text : string) : M unit :=
  let parts := PyStr.words text in
  if (length parts <? 2)%nat then
    send_message chat_id "Usage: /delete_reminder <reminder_id>"
  else
    match py_int (nth 1 parts "") with
    | Raise _ => send_message chat_id "Please provide a valid numeric reminder ID."
    | Ok rid =>
        try_exceptM
          (disable_task rid;;
           let job_id := "reminder-" +:+ pretty rid in
           job ← get_job job_id;
           match job with
           | Some _ => remove_job job_id
           | None => mret tt
           end;;
           send_message chat_id
             ("✅ Reminder *" +:+ pretty rid +:+ "* deleted successfully."))
          (λ e, send_message chat_id
                  ("⚠️ Could not delete reminder " +:+ pretty rid +:+ ": " +:+ str_exn e))
    end.

(** *** The update offset file

    The file is [None] when it does not exist, otherwise its content. *)

Definition load_offset (file : option string) : option Z :=
  match file with
  | None => None
  | Some content =>
      match py_int (PyStr.strip content) with
      | Ok n => Some n
      | Raise _ => None
      end
  end.

(** How the [with open(OFFSET_FILE, "w")] block of [save_offset] ends: the
    file cannot be opened; it is opened, which empties it, and then [str] or
    the write raises; or the text is written. *)
Inductive WriteOutcome : Set := OpenFails | WriteFails | Written.

(** Every exception is swallowed.  A failed open leaves the file as it was,
    a failure after the open leaves it empty. *)
Definition save_offset (outcome : WriteOutcome) (offset : Z) (file : option string)
    : option string :=
  match outcome with
  | OpenFails => file
  | WriteFails => Some ""
  | Written => Some (pretty offset)
  end.

(** *** The note table of [src/db.py] *)

Record NoteRow : Set := MkNote {
  note_id : Z;
  note_user_chat_id : string;
  note_text : string;
  note_created_at : string;
  note_pinned : Z
}.

(** [WHERE user_chat_id = ? AND id = ?] *)
Definition note_matches (user_chat_id : string) (nid : Z) (n : NoteRow) : bool :=
  bool_decide (note_user_chat_id n = user_chat_id) && bool_decide (note_id n = nid).

Definition set_pinned (v : Z) (n : NoteRow) : NoteRow :=
  MkNote (note_id n) (note_user_chat_id n) (note_text n) (note_created_at n) v.

(** [cur.rowcount > 0] after a statement with that [WHERE] clause. *)
Definition rowcount_positive (user_chat_id : string) (nid : Z) (notes : list NoteRow)
    : bool :=
  existsb (note_matches user_chat_id nid) notes.

(** [delete_note]: the result and the note table afterwards.  The note id
    is bound to a statement parameter, so an id that is no 64-bit integer
    raises before any row is touched. *)
Definition delete_note (user_chat_id : string) (nid : Z) (notes : list NoteRow)
    : result bool * list NoteRow :=
  if sqlite_int nid then
    (Ok (rowcount_positive user_chat_id nid notes),
     List.filter (λ n, negb (note_matches user_chat_id nid n)) notes)
  else (Raise OverflowError, notes).

(** [UPDATE note SET pinned = v WHERE user_chat_id = ? AND id = ?] as
    [pin_note] and [unpin_note] run it. *)
Definition update_pinned (v : Z) (user_chat_id : string) (nid : Z)
    (notes : list NoteRow) : result bool * list NoteRow :=
  if sqlite_int nid then
    (Ok (rowcount_positive user_chat_id nid notes),
     map (λ n, if note_matches user_chat_id nid n then set_pinned v n else n) notes)
  else (Raise OverflowError, notes).

Definition pin_note := update_pinned 1.
Definition unpin_note := update_pinned 0.

(** *** Line wrapping in [generate_notes_pdf] *)

(** [range(0, stop, step)] for a positive step. *)
Definition range_step (stop step : nat) : list nat :=
  map (λ k, k * step)%nat (seq 0 ((stop + step - 1) / step)).

(** [[line[i:i+max_chars] for i in range(0, len(line), max_chars)]] *)
Definition wrap (max_chars : nat) (line : string) : list string :=
  map (λ i, PyStr.slice i (i + max_chars) line) (range_step (String.length line) max_chars).

(** ** The scheduling code

    The code calls into three libraries whose sources are not part of the
    repository: APScheduler's trigger constructors, which validate their
    arguments and raise on bad ones, and the [json] codec.  They are the
    parameters of this section: its theorems hold whatever the libraries
    accept, and where one depends on what a constructor does with an
    argument, it says so in a hypothesis. *)

Section Scheduling.

(** [CronTrigger(day_of_week=d, hour=h, minute=m, timezone=TZ)] succeeds. *)
Variable cron_accepts : string → Z → Z → bool.
(** [IntervalTrigger(timezone=TZ, **{u: n})] succeeds. *)
Variable interval_accepts : IntervalUnit → Z → bool.
(** [json.loads]; [None] stands for the decoder raising. *)
Variable json_loads : string → option json.
Variable json_dumps : json → string.

Definition new_CronTrigger (d : string) (h m : Z) : result CronSpec :=
  if cron_accepts d h m then Ok (MkCron d h m) else Raise ValueError.

Definition new_IntervalTrigger (u : IntervalUnit) (n : Z) : result Trigger :=
  if interval_accepts u n then Ok (interval_trigger u n) else Raise OverflowError.

Definition loads (s : string) : result json :=
  match json_loads s with
  | Some v => Ok v
  | None => Raise JSONDecodeError
  end.

(** *** [parse_rrule_to_interval_kwargs] *)

(** One turn of the loop over [rule.split(";")]. *)
Definition parts_step (parts : gmap string string) (kv : string) : gmap string string :=
  if PyStr.has_char "=" kv then
    match PyStr.split1 "=" kv with
    | Some (k, v) => <[PyStr.upper (PyStr.strip k) := PyStr.upper (PyStr.strip v)]> parts
    | None => parts
    end
  else parts.

(** The dictionary [parts] the parser builds from a rule. *)
Definition rrule_parts (rrule_str : string) : gmap string string :=
  let rule := PyStr.replace "RRULE:" "" rrule_str in
  foldl parts_step ∅ (PyStr.split ";" rule).

(** [x] is a non-empty string ([if byhour], [if byday], ...). *)
Definition given (x : option string) : bool :=
  match x with
  | Some v => PyStr.truthy v
  | None => false
  end.

(** [int(parts.get(k, d))], [x] being [parts.get(k)] *)
Definition int_get (x : option string) (d : Z) : result Z :=
  match x with
  | Some v => py_int v
  | None => Ok d
  end.

(** [int(x) if x else d] *)
Definition int_or (x : option string) (d : Z) : result Z :=
  match x with
  | Some v => if PyStr.truthy v then py_int v else Ok d
  | None => Ok d
  end.

(** [mapping.get(freq)] *)
Definition mapping_get (freq : string) (interval : Z) : option ParseValue :=
  if decide (freq = "SECONDLY") then Some (PKwargs seconds interval)
  else if decide (freq = "MINUTELY") then Some (PKwargs minutes interval)
  else if decide (freq = "HOURLY") then Some (PKwargs hours interval)
  else if decide (freq = "DAILY") then Some (PKwargs days interval)
  else if decide (freq = "WEEKLY") then Some (PKwargs weeks interval)
  else None.

(** The body of the [try] block. *)
Definition parse_body (rrule_str : string) : result (option ParseValue) :=
  let parts := rrule_parts rrule_str in
  let freq := default "MINUTELY" (parts !! "FREQ") in
  interval ← int_get (parts !! "INTERVAL") 1;
  let byhour := parts !! "BYHOUR" in
  let byminute := parts !! "BYMINUTE" in
  let byday := parts !! "BYDAY" in
  if given byhour || given byminute || given byday then
    hour ← int_or byhour 9;
    minute ← int_or byminute 0;
    let day_of_week := if given byday then default "*" byday else "*" in
    cron ← new_CronTrigger day_of_week hour minute;
    Ok (Some (PCron cron))
  else
    Ok (mapping_get freq interval).

Definition parse_rrule_to_interval_kwargs (rrule_str : string)
    : result (option ParseValue) :=
  if negb (PyStr.truthy rrule_str) || negb (PyStr.startswith rrule_str "RRULE:")
  then Ok None
  else try_except (parse_body rrule_str) (λ _, Ok None).

(** *** [schedule_job_for_task] *)

Definition job_id_of (task_id : Z) : string := "reminder-" +:+ pretty task_id.

Definition schedule_job_for_task (task_id : Z) (params : json)
    (schedule_rule : string) : M bool :=
  let job_id := job_id_of task_id in
  existing ← get_job job_id;
  match existing with
  | Some _ => remove_job job_id
  | None => mret tt
  end;;
  try_exceptM
    (if PyStr.contains "FREQ=ONCE" schedule_rule then
       now ← datetime_now;
       let run_dt := now + 60 in
       add_job (MkJob (DateTrigger run_dt) params) job_id true;;
       mret true
     else
       kw ← lift (parse_rrule_to_interval_kwargs schedule_rule);
       match kw with
       | Some (PCron c) =>
           add_job (MkJob (CronTrigger c) params) job_id true;;
           mret true
       | Some (PKwargs u n) =>
           trig ← lift (new_IntervalTrigger u n);
           add_job (MkJob trig params) job_id true;;
           mret true
       | None =>
           now ← datetime_now;
           let run_dt := now + 60 in
           add_job (MkJob (DateTrigger run_dt) params) job_id true;;
           mret true
       end)
    (λ _, mret false).

(** *** [persist_task_and_schedule] *)

(** The plan object: the keys the function reads, each absent or a
    string ([extra_store] is [plan_obj["extra"]["store"]]). *)
Record Plan : Set := MkPlan {
  task_type : option string;
  text : option string;
  schedule_rule : option string;
  extra_store : option string;
  extra_item : option string;
  store : option string;
  store_name : option string;
  item : option string
}.

(** [a or b or ... or ""] over optional strings. *)
Definition first_given (l : list (option string)) : string :=
  default "" (default None (List.find given l)).

(** The dictionary [internal]. *)
Definition internal_of (user_chat_id : string) (plan_obj : Plan) : json :=
  let is_order := bool_decide (task_type plan_obj = Some "order") in
  let tool := if is_order then "orders.place_order" else "messaging.send_message" in
  let args :=
    if is_order then
      JObj [("buyer_chat_id", JStr user_chat_id);
            ("store_identifier",
              JStr (first_given [extra_store plan_obj; store plan_obj; store_name plan_obj]));
            ("item",
              JStr (first_given [extra_item plan_obj; item plan_obj; text plan_obj]))]
    else
      JObj [("chat_id", JStr user_chat_id);
            ("text", JStr (default "Reminder" (text plan_obj)))] in
  JObj [("plan", JStr (default "reminder" (task_type plan_obj)));
        ("calls", JArr [JObj [("tool", JStr tool); ("args", args)]])].

(** [create_task] of [src/db.py]: one more row, whose id is the new
    largest row id.  The [except] branch of the caller inserts the same row
    by hand, so both ways of the [try] end in this state. *)
Definition create_task (user_id : Z) (type_ : string) (plan : json)
    (rule : string) (enabled : Z) : M Z := λ w,
  let tid := lastrowid (task w) + 1 in
  (Ok tid,
   set_task (λ rows, (rows ++ [MkTaskRow tid user_id type_ (Some (json_dumps plan))
                                 (Some rule) enabled])%list) w).

Definition persist_task_and_schedule (user_chat_id : string) (plan_obj : Plan)
    : M (option Z) :=
  let internal := internal_of user_chat_id plan_obj in
  r ← select_user user_chat_id;
  let user_id := default 1 r in
  tid ← create_task user_id (default "reminder" (task_type plan_obj)) internal
          (default "RRULE:FREQ=MINUTELY;INTERVAL=1" (schedule_rule plan_obj)) 1;
  let rule := normalize_rrule (default "" (schedule_rule plan_obj)) in
  scheduled ← schedule_job_for_task tid internal rule;
  (if scheduled : bool then
     send_message user_chat_id
       ("✅ Reminder scheduled and active (task id=" +:+ pretty tid +:+ ").")
   else mret tt);;
  mret (if scheduled : bool then Some tid else None).

(** *** [restore_saved_reminders_from_db] *)

Definition restore_row (row : TaskRow) : M unit :=
  params ← match row_params_json row with
           | Some s => lift (loads s)
           | None => mret JNull
           end;
  schedule_job_for_task (row_id row) params (default "" (row_schedule_rule row));;
  mret tt.

Definition restore_saved_reminders_from_db : M unit :=
  try_exceptM
    (rows ← select_enabled_tasks;
     for_each rows restore_row)
    (λ _, mret tt).


(** *** Two branches of the [/remind] handler *)

(** The reminder branch once the explicit pattern has matched: [action] is
    the stripped action text, [num] and [unit_] the captured number and unit. *)
Definition remind_explicit (chat_id action unit_ : string) (num : Z) : M unit :=
  let rrule := explicit_rrule unit_ num in
  let plan := MkPlan (Some "reminder") (Some (PyStr.capitalize action)) (Some rrule)
                None None None None None in
  tid ← persist_task_and_schedule chat_id plan;
  if truthy_id tid then
    send_message chat_id
      ("✅ Created reminder (task id=" +:+ str_id tid
         +:+ "). I’ll remind you to " +:+ action +:+ " per the schedule.")
  else send_message chat_id "⚠️ Failed to create reminder.".

(** The order branch once the recurring pattern has matched. *)
Definition remind_recurring_order (chat_id item_part store_part unit_ : string)
    (num : Z) : M unit :=
  let rrule := recurring_order_rrule unit_ num in
  let plan := MkPlan (Some "order")
                (Some ("Order " +:+ item_part +:+ " from " +:+ store_part))
                (Some rrule) None None None None None in
  tid ← persist_task_and_schedule chat_id plan;
  send_message chat_id
    ("✅ Scheduled recurring order (task id=" +:+ str_id tid +:+ ").").

(** [num if "second" in unit else num * 60 if "minute" in unit else num * 3600] *)
Definition once_delay (unit_ : string) (num : Z) : Z :=
  if PyStr.contains "second" unit_ then num
  else if PyStr.contains "minute" unit_ then num * 60
  else num * 3600.

(** The order branch once the one-time pattern has matched.  [isoformat]
    renders a clock reading as [datetime.isoformat] does.  The date
    arithmetic raises on a delay that leads past the last date; the branch
    has no handler of its own, so the exception leaves it (the [try] around
    all of [process_message] prints it and returns). *)
Definition remind_once_order (isoformat : Z → string)
    (chat_id item_part store_part unit_ : string) (num : Z) : M unit :=
  let delay_seconds := once_delay unit_ num in
  now ← datetime_now;
  run_dt ← lift (datetime_add now delay_seconds);
  let run_at := isoformat run_dt in
  let plan := MkPlan (Some "order")
                (Some ("Order " +:+ item_part +:+ " from " +:+ store_part))
                (Some ("RRULE:FREQ=ONCE;RUN_AT=" +:+ run_at))
                (Some store_part) (Some item_part) None None None in
  tid ← persist_task_and_schedule chat_id plan;
  if truthy_id tid then
    send_message chat_id
      ("✅ Scheduled one-time order (task id=" +:+ str_id tid +:+ ") for *"
         +:+ item_part +:+ "* from *" +:+ store_part +:+ "* in "
         +:+ pretty num +:+ " " +:+ unit_ +:+ ".")
  else send_message chat_id "⚠️ Failed to schedule order.".

(** The daily branch of [/emailsummary] once its pattern has matched:
    [hour0] and [minute] are the integers of the first two groups (minute 0
    when absent), [ampm] the third group. *)
Definition email_summary_daily (chat_id : string) (hour0 minute : Z)
    (ampm : option string) : M unit :=
  let hour := to_24h hour0 ampm in
  let rrule := summary_rrule None hour minute in
  let plan := MkPlan (Some "email_summary") (Some "Daily Gmail summary") (Some rrule)
                None None None None None in
  tid ← persist_task_and_schedule chat_id plan;
  if truthy_id tid then
    send_message chat_id
      ("✅ Scheduled Gmail summary every day at " +:+ pad2 hour +:+ ":" +:+ pad2 minute
         +:+ ". (task id=" +:+ str_id tid +:+ ")")
  else send_message chat_id "⚠️ Failed to schedule daily Gmail summary.".

(** The weekly branch: [day_token] is the day the pattern captured, [hour0]
    and [minute] the integers of the next groups (9 and 0 when absent).  The
    token is one lower-case word, on which [title()] is [capitalize()]. *)
Definition email_summary_weekly (chat_id day_token : string) (hour0 minute : Z)
    (ampm : option string) : M unit :=
  let hour := to_24h hour0 ampm in
  let byday := byday_of day_token in
  let rrule := summary_rrule (Some byday) hour minute in
  let plan := MkPlan (Some "email_summary")
                (Some ("Weekly Gmail summary (" +:+ byday +:+ ")")) (Some rrule)
                None None None None None in
  tid ← persist_task_and_schedule chat_id plan;
  if truthy_id tid then
    send_message chat_id
      ("✅ Scheduled weekly Gmail summary on " +:+ PyStr.capitalize day_token
         +:+ " at " +:+ pad2 hour +:+ ":" +:+ pad2 minute
         +:+ ". (task id=" +:+ str_id tid +:+ ")")
  else send_message chat_id "⚠️ Failed to schedule weekly Gmail summary.".

(** The trigger a rule resolves to at clock reading [now], or [None] when
    the interval trigger constructor rejects the parsed interval. *)
Definition resolve (schedule_rule : string) (now : Z) : option Trigger :=
  if PyStr.contains "FREQ=ONCE" schedule_rule then Some (DateTrigger (now + 60))
  else match parse_rrule_to_interval_kwargs schedule_rule with
       | Ok (Some (PCron c)) => Some (CronTrigger c)
       | Ok (Some (PKwargs u n)) =>
           if interval_accepts u n then Some (interval_trigger u n) else None
       | Ok None => Some (DateTrigger (now + 60))
       | Raise _ => None
       end.

(** What [schedule_job_for_task] leaves behind when it installs trigger
    [t]: it returns [True], the job of [task_id] is [t] with [params], and
    no other job is touched. *)
Definition installs (tid : Z) (params : json) (t : Trigger) (w : World)
    (r : result bool * World) : Prop :=
  r = (Ok true, set_jobs (insert (job_id_of tid) (MkJob t params)) w).

(** A record recovery cannot read: its [params_json] is a text the decoder
    rejects. *)
Definition malformed (row : TaskRow) : bool :=
  match row_params_json row with
  | Some s => bool_decide (json_loads s = None)
  | None => false
  end.

(** The [params] recovery passes on for a readable record. *)
Definition params_of (row : TaskRow) : json :=
  match row_params_json row with
  | Some s => default JNull (json_loads s)
  | None => JNull
  end.

(** [rule or ""] *)
Definition rule_of (row : TaskRow) : string := default "" (row_schedule_rule row).


(** The job store after the readable records [rows] have been rescheduled
    in order at clock reading [now]. *)
Definition rescheduled (now : Z) (rows : list TaskRow) (m : gmap string Job)
    : gmap string Job :=
  foldl (λ m row,
           match resolve (rule_of row) now with
           | Some t => <[job_id_of (row_id row) := MkJob t (params_of row)]> m
           | None => delete (job_id_of (row_id row)) m
           end) m rows.

(** The records recovery reaches: those before the first malformed one. *)
Fixpoint readable_prefix (rows : list TaskRow) : list TaskRow :=
  match rows with
  | [] => []
  | r :: rows' => if malformed r then [] else r :: readable_prefix rows'
  end.

(** The row [persist_task_and_schedule] writes for a plan. *)
Definition stored_row (tid user_id : Z) (user_chat_id : string) (plan_obj : Plan)
    : TaskRow :=
  MkTaskRow tid user_id (default "reminder" (task_type plan_obj))
    (Some (json_dumps (internal_of user_chat_id plan_obj)))
    (Some (default "RRULE:FREQ=MINUTELY;INTERVAL=1" (schedule_rule plan_obj))) 1.



(** The confirmation [persist_task_and_schedule] sends. *)
Definition scheduled_message (tid : Z) : string :=
  "✅ Reminder scheduled and active (task id=" +:+ pretty tid +:+ ").".

(** *** Facts *)


(** **** Strings of digits *)

(** Case analysis on a character known to be a digit. *)
Lemma is_digit_cases c :
  is_digit c = true →
  c ∈ ["0"; "1"; "2"; "3"; "4"; "5"; "6"; "7"; "8"; "9"]%char.
Proof.
  destruct c as [[] [] [] [] [] [] [] []]; intros H;
    try (vm_compute in H; discriminate H); set_solver.
Qed.

Ltac digit_case c H :=
  let Hc := fresh in
  pose proof (is_digit_cases c H) as Hc;
  repeat (apply elem_of_cons in Hc as [-> | Hc]); [.. | by apply elem_of_nil in Hc].

Lemma all_digits_cons c s :
  all_digits (String c s) = true ↔ is_digit c = true ∧ all_digits s = true.
Proof. simpl. apply andb_true_iff. Qed.

Lemma sub_go_digits new t :
  all_digits t = true → PyStr.sub_go (PyStr.literal "RRULE:") new 0 t = t.
Proof.
  induction t as [|c t IH]; [done|].
  intros [Hc Ht]%all_digits_cons. simpl. rewrite (IH Ht).
  digit_case c Hc; reflexivity.
Qed.

Lemma split_digits t : all_digits t = true → PyStr.split ";" t = [t].
Proof.
  induction t as [|c t IH]; [done|].
  intros [Hc Ht]%all_digits_cons. simpl. rewrite (IH Ht).
  digit_case c Hc; reflexivity.
Qed.

Lemma upper_digits t : all_digits t = true → PyStr.upper t = t.
Proof.
  induction t as [|c t IH]; [done|].
  intros [Hc Ht]%all_digits_cons. simpl. rewrite (IH Ht).
  digit_case c Hc; reflexivity.
Qed.

Lemma lstrip_digits t : all_digits t = true → PyStr.lstrip t = t.
Proof.
  destruct t as [|c t]; [done|].
  intros [Hc _]%all_digits_cons. simpl.
  digit_case c Hc; reflexivity.
Qed.

Lemma rstrip_digits t : all_digits t = true → PyStr.rstrip t = t.
Proof.
  induction t as [|c t IH]; [done|].
  intros [Hc Ht]%all_digits_cons. simpl. rewrite (IH Ht).
  destruct t; [|done].
  digit_case c Hc; reflexivity.
Qed.

Lemma strip_digits t : all_digits t = true → PyStr.strip t = t.
Proof.
  intros Ht. unfold PyStr.strip. by rewrite lstrip_digits, rstrip_digits.
Qed.

Lemma py_int_digits t n :
  all_digits t = true → int_digits 0 false t = Some n → py_int t = Ok n.
Proof.
  intros Ht Hn. unfold py_int. rewrite (strip_digits t Ht).
  destruct t as [|c t]; [done|].
  apply all_digits_cons in Ht as [Hc _].
  digit_case c Hc; rewrite Hn; f_equal; lia.
Qed.

(** *** The decimal numerals [pretty] writes *)

Lemma digit_of_pretty_N_char d :
  (d < 10)%N → digit_of (pretty_N_char d) = Some (Z.of_N d).
Proof.
  intros Hd.
  assert (d = 0 ∨ d = 1 ∨ d = 2 ∨ d = 3 ∨ d = 4 ∨ d = 5 ∨ d = 6 ∨ d = 7
          ∨ d = 8 ∨ d = 9)%N as Hcases by lia.
  destruct_or!; subst d; reflexivity.
Qed.

Lemma all_digits_pretty_N_go x s :
  all_digits s = true → all_digits (pretty_N_go x s) = true.
Proof.
  revert s. induction (N.lt_wf_0 x) as [x _ IH]. intros s Hs.
  destruct (decide (x = 0)%N) as [-> | Hx]; [by rewrite pretty_N_go_0|].
  rewrite pretty_N_go_step by lia.
  apply IH; [apply N.div_lt; lia|].
  apply all_digits_cons. split; [|done].
  unfold is_digit. by rewrite digit_of_pretty_N_char by (apply N.mod_lt; lia).
Qed.

Lemma int_digits_pretty_N_go x s b :
  (0 < x)%N →
  int_digits 0 b (pretty_N_go x s) = int_digits (Z.of_N x) true s.
Proof.
  revert s b. induction (N.lt_wf_0 x) as [x _ IH]. intros s b Hx.
  rewrite pretty_N_go_step by done.
  pose proof (N.div_mod x 10 ltac:(lia)) as Hdm.
  pose proof (N.mod_lt x 10 ltac:(lia)) as Hlt.
  destruct (decide (x `div` 10 = 0)%N) as [Hz | Hnz].
  - rewrite Hz, pretty_N_go_0. simpl.
    rewrite digit_of_pretty_N_char by done. f_equal. lia.
  - rewrite IH by (try apply N.div_lt; lia). simpl.
    rewrite digit_of_pretty_N_char by done. f_equal. lia.
Qed.

Lemma pretty_pos_digits (n : Z) :
  0 < n → all_digits (pretty n) = true ∧ int_digits 0 false (pretty n) = Some n.
Proof.
  destruct n as [|p|p]; try lia. intros _.
  change (pretty (Z.pos p)) with (pretty_N_go (N.pos p) "").
  split; [by apply all_digits_pretty_N_go|].
  rewrite int_digits_pretty_N_go by lia. simpl. f_equal.
Qed.

(** **** The parser and the scheduler *)

Lemma startswith_truthy s c p :
  PyStr.startswith s (String c p) = true → PyStr.truthy s = true.
Proof. by destruct s. Qed.

Lemma parse_total s : ∃ v, parse_rrule_to_interval_kwargs s = Ok v.
Proof.
  unfold parse_rrule_to_interval_kwargs.
  destruct (_ || _); [by eexists|].
  destruct (parse_body s); simpl; by eexists.
Qed.

Lemma set_jobs_set_jobs f g w : set_jobs f (set_jobs g w) = set_jobs (f ∘ g) w.
Proof. done. Qed.

Lemma set_jobs_ext f g w : f (jobs w) = g (jobs w) → set_jobs f w = set_jobs g w.
Proof. unfold set_jobs. by intros ->. Qed.

Lemma set_jobs_id f w : f (jobs w) = jobs w → set_jobs f w = w.
Proof. destruct w; unfold set_jobs; simpl. by intros ->. Qed.

Lemma schedule_spec tid params rule w :
  schedule_job_for_task tid params rule w =
    match resolve rule (clock w) with
    | Some t => (Ok true, set_jobs (insert (job_id_of tid) (MkJob t params)) w)
    | None => (Ok false, set_jobs (delete (job_id_of tid)) w)
    end.
Proof.
  unfold schedule_job_for_task, resolve.
  unfold mbind, M_bind, get_job, remove_job, try_exceptM, add_job, lift,
    datetime_now, mret, M_ret, new_IntervalTrigger.
  set (id := job_id_of tid).
  destruct (jobs w !! id) as [j|] eqn:Hj; simpl;
    rewrite ?lookup_delete_eq, ?Hj;
    destruct (PyStr.contains "FREQ=ONCE" rule); simpl;
    rewrite ?lookup_delete_eq, ?Hj; simpl.
  all: try destruct (parse_rrule_to_interval_kwargs rule) as [[[c|u n]|]|e]; simpl;
    rewrite ?lookup_delete_eq, ?Hj; simpl;
    try destruct (interval_accepts u n); simpl;
    rewrite ?lookup_delete_eq, ?Hj; simpl.
  all: f_equal; rewrite ?set_jobs_set_jobs;
    first [ apply set_jobs_ext; simpl; by rewrite ?insert_delete_eq
          | symmetry; apply set_jobs_id; by apply delete_id ].
Qed.

(** The dictionary of a rule [RRULE:FREQ=X;INTERVAL=<digits>]. *)
Lemma rrule_parts_interval_rule (X : Freq) (t : string) :
  all_digits t = true →
  rrule_parts ("RRULE:FREQ=" +:+ freq_token X +:+ ";INTERVAL=" +:+ t)
  = <["INTERVAL" := t]> (<["FREQ" := freq_token X]> ∅).
Proof.
  intros Ht. unfold rrule_parts, PyStr.replace.
  destruct X; simpl; change ("" +:+ t) with t;
    rewrite (sub_go_digits _ _ Ht), (split_digits _ Ht); simpl;
    unfold parts_step; simpl;
    rewrite (strip_digits _ Ht), (upper_digits _ Ht); reflexivity.
Qed.

Lemma parse_interval_rule (X : Freq) (t : string) (n : Z) :
  all_digits t = true →
  int_digits 0 false t = Some n →
  parse_rrule_to_interval_kwargs ("RRULE:FREQ=" +:+ freq_token X +:+ ";INTERVAL=" +:+ t)
  = Ok (Some (PKwargs (freq_unit X) n)).
Proof.
  intros Ht Hn.
  unfold parse_rrule_to_interval_kwargs.
  replace (negb (PyStr.truthy _) || negb (PyStr.startswith _ "RRULE:")) with false
    by (by destruct X).
  unfold parse_body. rewrite (rrule_parts_interval_rule X t Ht).
  unfold int_get. rewrite lookup_insert_eq, (py_int_digits t n Ht Hn).
  rewrite !(lookup_insert_ne _ "INTERVAL") by done.
  rewrite lookup_insert_eq, !(lookup_insert_ne _ "FREQ") by done.
  rewrite !lookup_empty. simpl.
  by destruct X.
Qed.

Lemma installs_lookup tid params t w r :
  installs tid params t w r →
  jobs r.2 !! job_id_of tid = Some (MkJob t params)
  ∧ ∀ id, id ≠ job_id_of tid → jobs r.2 !! id = jobs w !! id.
Proof.
  unfold installs. intros ->. simpl. split; [apply lookup_insert_eq|].
  intros id Hid. by apply lookup_insert_ne.
Qed.

Lemma schedule_once tid params rule w :
  PyStr.contains "FREQ=ONCE" rule = true →
  installs tid params (DateTrigger (clock w + 60)) w
    (schedule_job_for_task tid params rule w).
Proof.
  intros Honce. unfold installs. rewrite schedule_spec. unfold resolve.
  by rewrite Honce.
Qed.

Lemma schedule_fallback tid params rule w :
  parse_rrule_to_interval_kwargs rule = Ok None →
  installs tid params (DateTrigger (clock w + 60)) w
    (schedule_job_for_task tid params rule w).
Proof.
  intros Hparse. unfold installs. rewrite schedule_spec. unfold resolve.
  rewrite Hparse. by destruct (PyStr.contains _ _).
Qed.

Lemma mapping_get_unknown f n :
  f ∉ ["SECONDLY"; "MINUTELY"; "HOURLY"; "DAILY"; "WEEKLY"] →
  mapping_get f n = None.
Proof.
  rewrite !not_elem_of_cons. intros Hf. destruct_and!.
  unfold mapping_get. by repeat case_decide.
Qed.

(** *** Theorems *)

(** C3 (amended): a rule with no usable BYHOUR/BYMINUTE/BYDAY whose FREQ
    value is none of SECONDLY, MINUTELY, HOURLY, DAILY, WEEKLY, ONCE parses
    to no trigger, and scheduling it installs the one-shot fallback at
    now + 60 seconds.  No hourly default exists. *)
Theorem unknown_freq_falls_back_to_once tid params rule f w :
  rrule_parts rule !! "FREQ" = Some f →
  f ∉ ["SECONDLY"; "MINUTELY"; "HOURLY"; "DAILY"; "WEEKLY"; "ONCE"] →
  given (rrule_parts rule !! "BYHOUR") = false →
  given (rrule_parts rule !! "BYMINUTE") = false →
  given (rrule_parts rule !! "BYDAY") = false →
  parse_rrule_to_interval_kwargs rule = Ok None
  ∧ installs tid params (DateTrigger (clock w + 60)) w
      (schedule_job_for_task tid params rule w).
Proof.
  intros Hf Hnot Hh Hm Hd.
  assert (parse_rrule_to_interval_kwargs rule = Ok None) as Hparse.
  { unfold parse_rrule_to_interval_kwargs.
    destruct (_ || _); [done|].
    unfold parse_body. rewrite Hf, Hh, Hm, Hd. simpl.
    destruct (int_get (rrule_parts rule !! "INTERVAL") 1) as [n|e]; simpl; [|done].
    rewrite mapping_get_unknown; [done|].
    rewrite !not_elem_of_cons in Hnot. rewrite !not_elem_of_cons.
    destruct_and!. by repeat split. }
  split; [done|]. by apply schedule_fallback.
Qed.

(** C4: a rule [RRULE:FREQ=X;INTERVAL=n], X one of the five frequencies and
    n a positive integer in decimal, parses to the interval keywords
    [{unit of X: n}]: a period of exactly n units of X. *)
Theorem interval_rule_period (X : Freq) (n : Z) :
  0 < n →
  parse_rrule_to_interval_kwargs
    ("RRULE:FREQ=" +:+ freq_token X +:+ ";INTERVAL=" +:+ pretty n)
  = Ok (Some (PKwargs (freq_unit X) n)).
Proof.
  intros Hn. destruct (pretty_pos_digits n Hn) as [Hdigits Hval].
  by apply parse_interval_rule.
Qed.

(** C5 (amended): a rule that starts with RRULE:, is not a one-shot rule,
    carries a non-empty BYHOUR or BYMINUTE and no BYDAY value, whose INTERVAL,
    BYHOUR and BYMINUTE values (where present) are integer literals, with the
    hour within 0..23 and the minute within 0..59, resolves to a cron
    trigger on any day ([*]), at hour 9 when BYHOUR is not given and minute 0
    when BYMINUTE is not given.  Conversely, the job is a cron trigger only
    for a rule that starts with RRULE:, is not a one-shot rule, carries a
    non-empty BYHOUR, BYMINUTE or BYDAY, has integer literals for INTERVAL,
    BYHOUR and BYMINUTE, and an hour and a minute within range; and a rule
    that carries a non-empty BYHOUR, BYMINUTE or BYDAY never gets an interval
    trigger.  The two hypotheses say what [CronTrigger] does with an hour and
    a minute; what it does with a BYDAY value is left open. *)
Theorem by_rule_resolves_to_cron tid params rule w :
  (∀ h m, 0 ≤ h ≤ 23 → 0 ≤ m ≤ 59 → cron_accepts "*" h m = true) →
  (∀ d h m, cron_accepts d h m = true → 0 ≤ h ≤ 23 ∧ 0 ≤ m ≤ 59) →
  let byhour := rrule_parts rule !! "BYHOUR" in
  let byminute := rrule_parts rule !! "BYMINUTE" in
  let byday := rrule_parts rule !! "BYDAY" in
  let after := (schedule_job_for_task tid params rule w).2 in
  (∀ n h m,
     PyStr.startswith rule "RRULE:" = true →
     PyStr.contains "FREQ=ONCE" rule = false →
     given byhour || given byminute = true →
     given byday = false →
     int_get (rrule_parts rule !! "INTERVAL") 1 = Ok n →
     int_or byhour 9 = Ok h →
     int_or byminute 0 = Ok m →
     0 ≤ h ≤ 23 → 0 ≤ m ≤ 59 →
     parse_rrule_to_interval_kwargs rule = Ok (Some (PCron (MkCron "*" h m)))
     ∧ installs tid params (CronTrigger (MkCron "*" h m)) w
         (schedule_job_for_task tid params rule w)
     ∧ (given byhour = false → h = 9)
     ∧ (given byminute = false → m = 0))
  ∧ (∀ j c,
       jobs after !! job_id_of tid = Some j →
       job_trigger j = CronTrigger c →
       PyStr.startswith rule "RRULE:" = true
       ∧ PyStr.contains "FREQ=ONCE" rule = false
       ∧ given byhour || given byminute || given byday = true
       ∧ (∃ n, int_get (rrule_parts rule !! "INTERVAL") 1 = Ok n)
       ∧ int_or byhour 9 = Ok (hour c)
       ∧ int_or byminute 0 = Ok (minute c)
       ∧ 0 ≤ hour c ≤ 23 ∧ 0 ≤ minute c ≤ 59
       ∧ day_of_week c = (if given byday then default "*" byday else "*"))
  ∧ (given byhour || given byminute || given byday = true →
     ∀ j u n, jobs after !! job_id_of tid = Some j →
              job_trigger j ≠ IntervalTrigger u n).
Proof.
  intros Hany Hrange byhour byminute byday after.
  split; [|split].
  - intros n h m Hpre Honce Hby Hday Hn Hh Hm Hhr Hmr.
    assert (parse_rrule_to_interval_kwargs rule = Ok (Some (PCron (MkCron "*" h m))))
      as Hparse.
    { unfold parse_rrule_to_interval_kwargs.
      rewrite (startswith_truthy _ _ _ Hpre), Hpre. simpl negb. simpl orb. cbv iota.
      unfold parse_body. rewrite Hn. unfold mbind, result_bind.
      fold byhour byminute byday. rewrite Hby, Hday, Hh, Hm. simpl orb. cbv iota.
      unfold new_CronTrigger. by rewrite (Hany h m Hhr Hmr). }
    split; [done|]. split.
    { unfold installs. rewrite schedule_spec. unfold resolve.
      by rewrite Honce, Hparse. }
    split.
    + intros Hg. unfold int_or, given in *.
      destruct byhour as [v|]; [rewrite Hg in Hh|]; congruence.
    + intros Hg. unfold int_or, given in *.
      destruct byminute as [v|]; [rewrite Hg in Hm|]; congruence.
  - intros j c Hj Htrig. unfold after in Hj.
    rewrite schedule_spec in Hj. unfold resolve in Hj.
    destruct (PyStr.contains "FREQ=ONCE" rule) eqn:Honce.
    { simpl in Hj. rewrite lookup_insert_eq in Hj. by simplify_eq. }
    unfold parse_rrule_to_interval_kwargs in Hj.
    destruct (PyStr.truthy rule) eqn:Htruthy;
      [|simpl in Hj; rewrite lookup_insert_eq in Hj; by simplify_eq].
    destruct (PyStr.startswith rule "RRULE:") eqn:Hpre;
      [|simpl in Hj; rewrite lookup_insert_eq in Hj; by simplify_eq].
    simpl negb in Hj. simpl orb in Hj. cbv iota in Hj.
    unfold parse_body in Hj. fold byhour byminute byday in Hj.
    destruct (int_get (rrule_parts rule !! "INTERVAL") 1) as [n|e] eqn:Hn;
      [|simpl in Hj; rewrite lookup_insert_eq in Hj; by simplify_eq].
    unfold mbind, result_bind in Hj.
    destruct (given byhour || given byminute || given byday) eqn:Hby.
    + destruct (int_or byhour 9) as [h|e] eqn:Hh;
        [|simpl in Hj; rewrite lookup_insert_eq in Hj; by simplify_eq].
      destruct (int_or byminute 0) as [m|e] eqn:Hm;
        [|simpl in Hj; rewrite lookup_insert_eq in Hj; by simplify_eq].
      unfold new_CronTrigger in Hj.
      destruct (cron_accepts _ h m) eqn:Hacc;
        [|simpl in Hj; rewrite lookup_insert_eq in Hj; by simplify_eq].
      simpl in Hj. rewrite lookup_insert_eq in Hj. simplify_eq.
      cbn [job_trigger] in Htrig. injection Htrig as <-. cbn [hour minute day_of_week].
      destruct (Hrange _ _ _ Hacc) as [Hhr Hmr].
      repeat split; try done; try lia. by eexists.
    + simpl in Hj. unfold try_except in Hj.
      destruct (mapping_get _ n) as [[c'|u k]|] eqn:Hmap.
      * unfold mapping_get in Hmap. by repeat case_decide.
      * destruct (interval_accepts u k); simpl in Hj;
          [rewrite lookup_insert_eq in Hj | rewrite lookup_delete_eq in Hj];
          simplify_eq. cbn [job_trigger] in Htrig.
        unfold interval_trigger in Htrig. by destruct (k =? 0).
      * simpl in Hj. rewrite lookup_insert_eq in Hj. by simplify_eq.
  - intros Hby j u n Hj Htrig. unfold after in Hj.
    rewrite schedule_spec in Hj. unfold resolve in Hj.
    destruct (PyStr.contains "FREQ=ONCE" rule) eqn:Honce.
    { simpl in Hj. rewrite lookup_insert_eq in Hj. by simplify_eq. }
    unfold parse_rrule_to_interval_kwargs in Hj.
    destruct (negb (PyStr.truthy rule) || negb (PyStr.startswith rule "RRULE:"));
      [simpl in Hj; rewrite lookup_insert_eq in Hj; by simplify_eq|].
    unfold parse_body in Hj. fold byhour byminute byday in Hj. rewrite Hby in Hj.
    destruct (int_get (rrule_parts rule !! "INTERVAL") 1) as [k|e];
      [|simpl in Hj; rewrite lookup_insert_eq in Hj; by simplify_eq].
    unfold mbind, result_bind in Hj.
    destruct (int_or byhour 9) as [h|e];
      [|simpl in Hj; rewrite lookup_insert_eq in Hj; by simplify_eq].
    destruct (int_or byminute 0) as [m|e];
      [|simpl in Hj; rewrite lookup_insert_eq in Hj; by simplify_eq].
    unfold new_CronTrigger in Hj.
    destruct (cron_accepts _ h m);
      simpl in Hj; rewrite lookup_insert_eq in Hj; by simplify_eq.
Qed.

(** C6: a rule that contains FREQ=ONCE is scheduled as a one-shot job that
    fires at now + 60 seconds, whatever else the rule carries (a RUN_AT
    stamp included); afterwards the job of that task id is this one-shot
    job, and the call returns [True]. *)
Theorem once_rule_fires_in_60s tid params rule w :
  PyStr.contains "FREQ=ONCE" rule = true →
  ∃ w', schedule_job_for_task tid params rule w = (Ok true, w')
        ∧ jobs w' !! job_id_of tid
          = Some (MkJob (DateTrigger (clock w + 60)) params)
        ∧ ∀ id, id ≠ job_id_of tid → jobs w' !! id = jobs w !! id.
Proof.
  intros Honce. pose proof (schedule_once tid params rule w Honce) as Hs.
  destruct (installs_lookup _ _ _ _ _ Hs) as [Hjob Hrest].
  unfold installs in Hs. rewrite Hs in *. eexists. by split.
Qed.

(** C7 (amended): on every string [schedule_job_for_task] returns
    normally (it raises nothing) and touches no job but that of its task id.
    It returns [True] and leaves exactly one job for the id, carrying the
    parameters given: the one-shot job at now + 60 seconds for a one-shot
    rule and whenever the parser resolves no trigger, the cron trigger the
    parser built, or the interval trigger built from the parsed keywords.
    The one exception: when the interval trigger constructor rejects the
    parsed keywords the call returns [False] and the id is left without a
    job. *)
Theorem schedule_never_raises tid params rule w :
  let once := PyStr.contains "FREQ=ONCE" rule in
  let kw := parse_rrule_to_interval_kwargs rule in
  ∃ (b : bool) (w' : World),
    schedule_job_for_task tid params rule w = (Ok b, w')
    ∧ (∀ id, id ≠ job_id_of tid → jobs w' !! id = jobs w !! id)
    ∧ (∃ v, kw = Ok v)
    ∧ (once = true ∨ kw = Ok None →
       b = true
       ∧ jobs w' !! job_id_of tid
         = Some (MkJob (DateTrigger (clock w + 60)) params))
    ∧ (∀ c, once = false → kw = Ok (Some (PCron c)) →
       b = true ∧ jobs w' !! job_id_of tid = Some (MkJob (CronTrigger c) params))
    ∧ (∀ u n, once = false → kw = Ok (Some (PKwargs u n)) →
       if interval_accepts u n
       then b = true
            ∧ jobs w' !! job_id_of tid = Some (MkJob (interval_trigger u n) params)
       else b = false ∧ jobs w' !! job_id_of tid = None).
Proof.
  intros once kw. rewrite schedule_spec. unfold resolve. fold once kw.
  destruct (parse_total rule) as [v Hv]. fold kw in Hv.
  assert (∃ (b : bool) (w' : World),
            (match (if once then Some (DateTrigger (clock w + 60))
                    else match kw with
                         | Ok (Some (PCron c)) => Some (CronTrigger c)
                         | Ok (Some (PKwargs u n)) =>
                             if interval_accepts u n then Some (interval_trigger u n)
                             else None
                         | Ok None => Some (DateTrigger (clock w + 60))
                         | Raise _ => None
                         end)
             with
             | Some t => (Ok true, set_jobs (insert (job_id_of tid) (MkJob t params)) w)
             | None => (Ok false, set_jobs (delete (job_id_of tid)) w)
             end) = (Ok b, w')) as (b & w' & Hrun).
  { destruct once; [by do 2 eexists|].
    destruct kw as [[[c|u n]|]|e]; try by do 2 eexists.
    destruct (interval_accepts u n); by do 2 eexists. }
  exists b, w'. split; [done|].
  clearbody once kw. subst kw.
  split.
  { intros id Hid. destruct once; [|destruct v as [[c|u n]|]].
    - simplify_eq. simpl. by rewrite lookup_insert_ne.
    - simplify_eq. simpl. by rewrite lookup_insert_ne.
    - destruct (interval_accepts u n); simplify_eq; simpl;
        [by rewrite lookup_insert_ne | by rewrite lookup_delete_ne].
    - simplify_eq. simpl. by rewrite lookup_insert_ne. }
  split; [by eexists|].
  split; [|split].
  - intros [Ho | Hk].
    + rewrite Ho in Hrun. simplify_eq. simpl. by rewrite lookup_insert_eq.
    + simplify_eq. destruct once; simplify_eq; simpl; by rewrite lookup_insert_eq.
  - intros c Ho Hk. rewrite Ho in Hrun. simplify_eq. simpl.
    by rewrite lookup_insert_eq.
  - intros u n Ho Hk. rewrite Ho in Hrun. simplify_eq.
    destruct (interval_accepts u n); simplify_eq; simpl;
      [by rewrite lookup_insert_eq | by rewrite lookup_delete_eq].
Qed.

(** C10: on the empty string and on every string that does not start with
    [RRULE:] the parser returns [None] without raising, and scheduling such
    a rule installs the one-shot fallback at now + 60 seconds. *)
Theorem unprefixed_rule_is_unparseable tid params rule w :
  rule = "" ∨ PyStr.startswith rule "RRULE:" = false →
  parse_rrule_to_interval_kwargs rule = Ok None
  ∧ installs tid params (DateTrigger (clock w + 60)) w
      (schedule_job_for_task tid params rule w).
Proof.
  intros Hrule.
  assert (parse_rrule_to_interval_kwargs rule = Ok None) as Hparse.
  { unfold parse_rrule_to_interval_kwargs.
    destruct Hrule as [-> | ->]; [done|].
    by rewrite orb_true_r. }
  split; [done|]. by apply schedule_fallback.
Qed.

(** **** Rescheduling and recovery *)

Global Instance job_id_of_inj : Inj (=) (=) job_id_of.
Proof.
  intros a b Hab. unfold job_id_of in Hab.
  by apply (inj (String.app "reminder-")), (inj pretty) in Hab.
Qed.


Lemma restore_row_readable row w :
  malformed row = false →
  restore_row row w = (Ok tt, set_jobs (rescheduled (clock w) [row]) w).
Proof.
  intros Hrow. unfold restore_row, rescheduled, rule_of, params_of, malformed in *.
  unfold mbind, M_bind, lift, loads, mret, M_ret. simpl.
  destruct (row_params_json row) as [s|]; simpl.
  - destruct (json_loads s) as [v|]; [|done]. simpl.
    rewrite schedule_spec. by destruct (resolve _ _).
  - rewrite schedule_spec. by destruct (resolve _ _).
Qed.

Lemma restore_row_malformed row w :
  malformed row = true → ∃ e, restore_row row w = (Raise e, w).
Proof.
  unfold restore_row, malformed, mbind, M_bind, lift, loads.
  destruct (row_params_json row) as [s|]; [|done].
  destruct (json_loads s); [done|]. by eexists.
Qed.




(** C8 (amended): two scheduling calls for one task id leave the world the
    second call alone would leave, so the job of the first call is gone and
    two jobs never coexist for the id.  The second call returns normally;
    when it returns [True] the id carries exactly the trigger and the
    parameters of the second call, and when it returns [False] (the interval
    constructor rejected the parsed interval) the id carries no job.  No
    other id is touched by the second call. *)
Theorem reschedule_replaces tid p1 r1 p2 r2 w :
  let w1 := (schedule_job_for_task tid p1 r1 w).2 in
  schedule_job_for_task tid p2 r2 w1 = schedule_job_for_task tid p2 r2 w
  ∧ ∃ (b : bool) (w2 : World),
      schedule_job_for_task tid p2 r2 w1 = (Ok b, w2)
      ∧ match resolve r2 (clock w1) with
        | Some t => b = true ∧ jobs w2 !! job_id_of tid = Some (MkJob t p2)
        | None => b = false ∧ jobs w2 !! job_id_of tid = None
        end
      ∧ ∀ id, id ≠ job_id_of tid → jobs w2 !! id = jobs w1 !! id.
Proof.
  intros w1. unfold w1. rewrite !schedule_spec.
  split.
  - destruct (resolve r1 (clock w)); simpl;
      destruct (resolve r2 (clock w)); f_equal; rewrite set_jobs_set_jobs;
      apply set_jobs_ext; simpl;
      by rewrite ?insert_insert_eq, ?insert_delete_eq, ?delete_insert_eq,
                 ?delete_delete_eq.
  - destruct (resolve r1 (clock w)); simpl;
      destruct (resolve r2 (clock w)); do 2 eexists;
      (split; [done|]); simpl.
    all: rewrite ?lookup_insert_eq, ?lookup_delete_eq.
    all: split; [done|].
    all: intros id Hid.
    all: first [ by rewrite lookup_insert_ne | by rewrite lookup_delete_ne ].
Qed.

(** *** Further properties of the scheduling code *)

Lemma persist_spec user_chat_id plan_obj w :
  let tid := lastrowid (task w) + 1 in
  let row := stored_row tid (default 1 (user_registry w !! user_chat_id))
               user_chat_id plan_obj in
  let w1 := set_task (λ rows, (rows ++ [row])%list) w in
  persist_task_and_schedule user_chat_id plan_obj w =
    match resolve (normalize_rrule (default "" (schedule_rule plan_obj))) (clock w) with
    | Some t =>
        (Ok (Some tid),
         set_outbox (λ o, (o ++ [(user_chat_id, scheduled_message tid)])%list)
           (set_jobs (insert (job_id_of tid)
                        (MkJob t (internal_of user_chat_id plan_obj))) w1))
    | None => (Ok None, set_jobs (delete (job_id_of tid)) w1)
    end.
Proof.
  intros tid row w1. unfold persist_task_and_schedule.
  unfold mbind at 1. unfold M_bind, select_user.
  unfold mbind at 1. unfold M_bind, create_task. fold tid. fold row. fold w1.
  unfold mbind at 1. unfold M_bind. rewrite schedule_spec.
  change (clock w1) with (clock w).
  by destruct (resolve _ _).
Qed.

Lemma lastrowid_bound rows r : r ∈ rows → row_id r ≤ lastrowid rows.
Proof.
  induction rows as [|x rows IH]; [by intros ?%elem_of_nil|].
  intros [-> | Hr]%elem_of_cons; simpl; [lia|].
  specialize (IH Hr). lia.
Qed.

Lemma lastrowid_nonneg rows : 0 ≤ lastrowid rows.
Proof. induction rows as [|x rows IH]; simpl; lia. Qed.

Lemma for_each_restore rows w :
  ∃ r, for_each rows restore_row w
       = (r, set_jobs (rescheduled (clock w) (readable_prefix rows)) w).
Proof.
  revert w. induction rows as [|x rows IH]; intros w.
  - exists (Ok tt). simpl. unfold mret, M_ret. f_equal. symmetry. by apply set_jobs_id.
  - simpl. unfold mbind, M_bind.
    destruct (malformed x) eqn:Hx.
    + destruct (restore_row_malformed x w Hx) as [e ->].
      exists (Raise e). f_equal. symmetry. by apply set_jobs_id.
    + rewrite (restore_row_readable x w Hx).
      destruct (IH (set_jobs (rescheduled (clock w) [x]) w)) as [r ->].
      exists r. by rewrite set_jobs_set_jobs.
Qed.

Lemma restore_spec w :
  restore_saved_reminders_from_db w =
    (Ok tt,
     set_jobs (rescheduled (clock w)
                 (readable_prefix (List.filter (λ r, row_enabled r =? 1) (task w)))) w).
Proof.
  unfold restore_saved_reminders_from_db, try_exceptM, select_enabled_tasks.
  unfold mbind, M_bind.
  destruct (for_each_restore (List.filter (λ r, row_enabled r =? 1) (task w)) w)
    as [r ->].
  by destruct r as [[]|e].
Qed.

Lemma rescheduled_snoc now rows r m :
  rescheduled now (rows ++ [r])%list m =
    match resolve (rule_of r) now with
    | Some t => <[job_id_of (row_id r) := MkJob t (params_of r)]> (rescheduled now rows m)
    | None => delete (job_id_of (row_id r)) (rescheduled now rows m)
    end.
Proof. unfold rescheduled. by rewrite foldl_app. Qed.

Lemma rescheduled_lookup_other now rows m k :
  k ∉ (job_id_of ∘ row_id) <$> rows → rescheduled now rows m !! k = m !! k.
Proof.
  induction rows as [|r rows IH] using rev_ind; [done|].
  rewrite fmap_app, not_elem_of_app. simpl. rewrite list_elem_of_singleton.
  intros [Hrows Hr]. rewrite rescheduled_snoc.
  destruct (resolve _ _);
    [rewrite lookup_insert_ne by done | rewrite lookup_delete_ne by done]; auto.
Qed.



Lemma readable_prefix_subseteq rows r : r ∈ readable_prefix rows → r ∈ rows.
Proof.
  induction rows as [|x rows IH]; simpl; [done|].
  destruct (malformed x); [by intros ?%elem_of_nil|].
  intros [-> | Hr]%elem_of_cons; [left | right; auto].
Qed.

(** X1: [schedule_job_for_task] returns normally on every input and touches
    nothing but the job of its own task id: the task table, the user
    registry, the messages sent, the clock and every other job stay as they
    were.  It returns [True] exactly when the id carries a job afterwards. *)
Theorem schedule_touches_only_its_job tid params rule w :
  ∃ (b : bool) (w' : World),
    schedule_job_for_task tid params rule w = (Ok b, w')
    ∧ task w' = task w
    ∧ user_registry w' = user_registry w
    ∧ outbox w' = outbox w
    ∧ clock w' = clock w
    ∧ (∀ id, id ≠ job_id_of tid → jobs w' !! id = jobs w !! id)
    ∧ (b = true ↔ is_Some (jobs w' !! job_id_of tid)).
Proof.
  rewrite schedule_spec.
  destruct (resolve rule (clock w)) as [t|]; do 2 eexists;
    (split; [done|]); simpl; repeat (split; [done|]).
  - split; [intros id Hid; by rewrite lookup_insert_ne|].
    rewrite lookup_insert_eq. split; [by eexists|done].
  - split; [intros id Hid; by rewrite lookup_delete_ne|].
    rewrite lookup_delete_eq. split; [done|]. by intros [? ?].
Qed.

(** X2: an INTERVAL value that is no integer literal voids the whole rule,
    whatever else it carries: the parser returns [None] and scheduling
    installs the one-shot fallback at now + 60 seconds. *)
Theorem bad_interval_voids_rule tid params rule v e w :
  rrule_parts rule !! "INTERVAL" = Some v →
  py_int v = Raise e →
  parse_rrule_to_interval_kwargs rule = Ok None
  ∧ installs tid params (DateTrigger (clock w + 60)) w
      (schedule_job_for_task tid params rule w).
Proof.
  intros Hv He.
  assert (parse_rrule_to_interval_kwargs rule = Ok None) as Hparse.
  { unfold parse_rrule_to_interval_kwargs. destruct (_ || _); [done|].
    unfold parse_body, int_get. by rewrite Hv, He. }
  split; [done|]. by apply schedule_fallback.
Qed.

(** X3: the parser's defaults.  A rule with the [RRULE:] prefix that names
    neither FREQ nor INTERVAL and gives no BYHOUR, BYMINUTE or BYDAY means
    every minute: the keywords are [{minutes: 1}]. *)
Theorem bare_rule_means_every_minute rule :
  PyStr.startswith rule "RRULE:" = true →
  rrule_parts rule !! "FREQ" = None →
  rrule_parts rule !! "INTERVAL" = None →
  given (rrule_parts rule !! "BYHOUR") = false →
  given (rrule_parts rule !! "BYMINUTE") = false →
  given (rrule_parts rule !! "BYDAY") = false →
  parse_rrule_to_interval_kwargs rule = Ok (Some (PKwargs minutes 1)).
Proof.
  intros Hpre Hf Hi Hh Hm Hd. unfold parse_rrule_to_interval_kwargs.
  rewrite (startswith_truthy _ _ _ Hpre), Hpre. simpl negb. simpl orb. cbv iota.
  unfold parse_body, int_get. by rewrite Hf, Hi, Hh, Hm, Hd.
Qed.

(** X4: [persist_task_and_schedule] returns normally and always stores one
    new enabled row, under an id above every id of the table, holding the
    rule as the plan gave it (the every-minute default for a plan without
    one).  It returns the id and sends the confirmation exactly when a job
    was installed; otherwise it returns [None], sends nothing, and the stored
    row is left enabled without a job. *)
Theorem persist_always_stores_row user_chat_id plan_obj w :
  ∃ (r : option Z) (w' : World),
    persist_task_and_schedule user_chat_id plan_obj w = (Ok r, w')
    ∧ (∃ row, task w' = (task w ++ [row])%list
              ∧ row_id row = lastrowid (task w) + 1
              ∧ (∀ old, old ∈ task w → row_id old < row_id row)
              ∧ row_enabled row = 1
              ∧ row_schedule_rule row
                = Some (default "RRULE:FREQ=MINUTELY;INTERVAL=1"
                          (schedule_rule plan_obj)))
    ∧ match r with
      | Some tid =>
          tid = lastrowid (task w) + 1
          ∧ is_Some (jobs w' !! job_id_of tid)
          ∧ outbox w' = (outbox w ++ [(user_chat_id, scheduled_message tid)])%list
      | None =>
          jobs w' !! job_id_of (lastrowid (task w) + 1) = None
          ∧ outbox w' = outbox w
      end.
Proof.
  rewrite persist_spec.
  assert (∀ old, old ∈ task w → row_id old < lastrowid (task w) + 1) as Hfresh.
  { intros old Hold. pose proof (lastrowid_bound _ _ Hold). lia. }
  destruct (resolve _ _) as [t|]; do 2 eexists; (split; [done|]); simpl.
  - split; [eexists; by repeat split|].
    rewrite lookup_insert_eq. repeat split; by eexists.
  - split; [eexists; by repeat split|].
    by rewrite lookup_delete_eq.
Qed.

(** X5: a plan without a schedule rule is stored with the every-minute
    default rule but scheduled from the empty rule, that is as the one-shot
    fallback at now + 60 seconds: the stored rule and the live job disagree. *)
Theorem plan_without_rule_stored_minutely user_chat_id plan_obj w :
  schedule_rule plan_obj = None →
  let tid := lastrowid (task w) + 1 in
  ∃ w', persist_task_and_schedule user_chat_id plan_obj w = (Ok (Some tid), w')
        ∧ row_schedule_rule <$> last (task w')
          = Some (Some "RRULE:FREQ=MINUTELY;INTERVAL=1")
        ∧ jobs w' !! job_id_of tid
          = Some (MkJob (DateTrigger (clock w + 60))
                    (internal_of user_chat_id plan_obj)).
Proof.
  intros Hrule tid. rewrite persist_spec. rewrite Hrule.
  change (resolve (normalize_rrule (default "" None)) (clock w))
    with (Some (DateTrigger (clock w + 60))).
  eexists. split; [done|]. simpl. rewrite last_snoc, lookup_insert_eq.
  unfold stored_row. by rewrite Hrule.
Qed.




(** X7: recovery returns normally on every world and touches only jobs of
    enabled records: the tables, the messages and the clock stay as they
    were, and so does every job whose id is not that of an enabled record. *)
Theorem restore_touches_only_enabled_jobs w :
  ∃ w', restore_saved_reminders_from_db w = (Ok tt, w')
        ∧ task w' = task w
        ∧ user_registry w' = user_registry w
        ∧ outbox w' = outbox w
        ∧ clock w' = clock w
        ∧ ∀ k, (∀ r, r ∈ task w → row_enabled r = 1 → k ≠ job_id_of (row_id r)) →
               jobs w' !! k = jobs w !! k.
Proof.
  rewrite restore_spec. eexists. split; [done|]. simpl. repeat (split; [done|]).
  intros k Hk. apply rescheduled_lookup_other.
  rewrite list_elem_of_fmap. intros (r & -> & Hr).
  apply readable_prefix_subseteq, list_elem_of_In, filter_In in Hr as [Hr Hen].
  apply (Hk r); [by apply list_elem_of_In | lia | done].
Qed.

(** **** Rules built by the handlers *)

Lemma sub_go_digit_free matcher new t :
  (∀ c s, is_digit c = true → matcher (String c s) = None) →
  all_digits t = true → PyStr.sub_go matcher new 0 t = t.
Proof.
  intros Hm. induction t as [|c t IH]; [done|].
  intros [Hc Ht]%all_digits_cons. simpl. by rewrite (Hm c t Hc), (IH Ht).
Qed.

Lemma literal_digit_head p0 p c s :
  is_digit p0 = false → is_digit c = true →
  PyStr.literal (String p0 p) (String c s) = None.
Proof.
  intros Hp Hc. unfold PyStr.literal, PyStr.startswith. cbn [String.prefix].
  destruct (ascii_dec p0 c) as [-> | ?]; [|reflexivity]. congruence.
Qed.

Lemma until_match_digit_head c s : is_digit c = true → until_match (String c s) = None.
Proof. intros Hc. digit_case c Hc; reflexivity. Qed.

Lemma rstrip_app_keeps a t :
  t ≠ "" → PyStr.rstrip t = t → PyStr.rstrip (a +:+ t) = a +:+ t.
Proof.
  intros Ht Hr. induction a as [|c a IH]; [done|].
  change (String c a +:+ t) with (String c (a +:+ t)).
  simpl. rewrite IH. destruct (a +:+ t) eqn:Hat; [|done].
  destruct a as [|d a]; [by change (t = "") in Hat|].
  by change (String d (a +:+ t) = "") in Hat.
Qed.

Lemma rstrip_app_keeps' a t :
  t ≠ "" → PyStr.rstrip t = t → a +:+ t ≠ "" ∧ PyStr.rstrip (a +:+ t) = a +:+ t.
Proof.
  intros Ht Hr. split; [|by apply rstrip_app_keeps].
  destruct a as [|c a]; [done|].
  by change (String c (a +:+ t) ≠ "").
Qed.

Lemma pretty_nonneg_digits (n : Z) :
  0 ≤ n →
  all_digits (pretty n) = true
  ∧ int_digits 0 false (pretty n) = Some n
  ∧ pretty n ≠ "".
Proof.
  intros Hn. destruct (decide (n = 0)) as [-> | Hne]; [done|].
  destruct (pretty_pos_digits n ltac:(lia)) as [Hd Hv].
  repeat split; [done..|]. intros Hnil. by rewrite Hnil in Hv.
Qed.

(** What [normalize_rrule] does to [RRULE:FREQ=X;INTERVAL=<digits>]. *)
Lemma normalize_interval_rule (X : Freq) (t : string) :
  all_digits t = true → t ≠ "" →
  normalize_rrule ("RRULE:FREQ=" +:+ freq_token X +:+ ";INTERVAL=" +:+ t)
  = "RRULE:FREQ=" +:+ scanned_token X +:+ ";INTERVAL=" +:+ t.
Proof.
  intros Ht Hne.
  assert (PyStr.strip ("RRULE:FREQ=" +:+ freq_token X +:+ ";INTERVAL=" +:+ t)
          = "RRULE:FREQ=" +:+ freq_token X +:+ ";INTERVAL=" +:+ t) as Hstrip.
  { unfold PyStr.strip. change (PyStr.lstrip ?s) with s.
    destruct (rstrip_app_keeps' ";INTERVAL=" t Hne (rstrip_digits t Ht)) as [H1 H1'].
    destruct (rstrip_app_keeps' (freq_token X) _ H1 H1') as [H2 H2'].
    by apply rstrip_app_keeps. }
  unfold normalize_rrule. rewrite Hstrip.
  destruct X; simpl freq_token; simpl scanned_token;
    change (PyStr.truthy _) with true; simpl negb; cbv iota;
    unfold PyStr.replace, re_sub_until; simpl; change ("" +:+ t) with t;
    rewrite !(sub_go_digit_free _ _ t) by
      (done || (intros; by apply literal_digit_head)
            || (intros; by apply until_match_digit_head));
    reflexivity.
Qed.

(** The dictionary of a rule whose frequency token was damaged by the scan. *)
Lemma parse_scanned_rule (X : Freq) (t : string) :
  X = MINUTELY ∨ X = HOURLY →
  all_digits t = true →
  parse_rrule_to_interval_kwargs ("RRULE:FREQ=" +:+ scanned_token X +:+ ";INTERVAL=" +:+ t)
  = Ok None.
Proof.
  intros HX Ht.
  assert (rrule_parts ("RRULE:FREQ=" +:+ scanned_token X +:+ ";INTERVAL=" +:+ t)
          = <["INTERVAL" := t]> (<["FREQ" := scanned_token X]> ∅)) as Hparts.
  { unfold rrule_parts, PyStr.replace.
    destruct HX as [-> | ->]; simpl; change ("" +:+ t) with t;
      rewrite (sub_go_digits _ _ Ht), (split_digits _ Ht); simpl;
      unfold parts_step; simpl;
      rewrite (strip_digits _ Ht), (upper_digits _ Ht); reflexivity. }
  unfold parse_rrule_to_interval_kwargs.
  replace (negb (PyStr.truthy _) || negb (PyStr.startswith _ "RRULE:")) with false
    by (by destruct HX as [-> | ->]).
  unfold parse_body. rewrite Hparts. unfold int_get.
  rewrite lookup_insert_eq.
  rewrite !(lookup_insert_ne _ "INTERVAL") by done.
  rewrite lookup_insert_eq, !(lookup_insert_ne _ "FREQ") by done.
  rewrite !lookup_empty.
  destruct (py_int t); simpl; [|done].
  by destruct HX as [-> | ->].
Qed.

Lemma explicit_units_rule unit_ X n :
  (unit_, X) ∈ explicit_units →
  explicit_rrule unit_ n = interval_rule X n
  ∧ recurring_order_rrule unit_ n = interval_rule X n.
Proof.
  unfold explicit_units. rewrite !elem_of_cons, elem_of_nil.
  intros H. destruct_or!; try done; simplify_eq; done.
Qed.

(** X8: the rule the [/remind] handler builds for [every n unit] (unit one
    of second(s), minute(s), hour(s), day(s), n a natural number) is
    [RRULE:FREQ=X;INTERVAL=n] for the frequency X of the unit, and the parser
    reads it back as n units of X. *)
Theorem explicit_rule_round_trip unit_ X n :
  (unit_, X) ∈ explicit_units →
  0 ≤ n →
  explicit_rrule unit_ n = interval_rule X n
  ∧ parse_rrule_to_interval_kwargs (explicit_rrule unit_ n)
    = Ok (Some (PKwargs (freq_unit X) n)).
Proof.
  intros Hu Hn. destruct (explicit_units_rule unit_ X n Hu) as [-> _].
  split; [done|].
  destruct (pretty_nonneg_digits n Hn) as (Hd & Hv & _).
  by apply parse_interval_rule.
Qed.

(** X9: a reminder asked for in minutes or hours is not scheduled at its
    interval while the process lives.  The handler stores the rule it built,
    but [persist_task_and_schedule] schedules the normalised rule, whose
    frequency token the scan has turned into MINUTELYLY or HOURLYLY; the
    parser resolves no trigger, the job of the new task is the one-shot
    fallback at now + 60 seconds, and the user is told the reminder was
    created. *)
Theorem live_minute_hour_reminder_is_one_shot chat_id action unit_ X n w :
  (unit_, X) ∈ explicit_units →
  X = MINUTELY ∨ X = HOURLY →
  0 ≤ n →
  let tid := lastrowid (task w) + 1 in
  ∃ w', remind_explicit chat_id action unit_ n w = (Ok tt, w')
        ∧ row_schedule_rule <$> last (task w') = Some (Some (interval_rule X n))
        ∧ job_trigger <$> jobs w' !! job_id_of tid = Some (DateTrigger (clock w + 60))
        ∧ outbox w'
          = (outbox w ++
             [(chat_id, scheduled_message tid);
              (chat_id, "✅ Created reminder (task id=" +:+ pretty tid
                          +:+ "). I’ll remind you to " +:+ action
                          +:+ " per the schedule.")])%list.
Proof.
  intros Hu HX Hn tid.
  destruct (explicit_units_rule unit_ X n Hu) as [Hrule _].
  destruct (pretty_nonneg_digits n Hn) as (Hd & _ & Hne).
  unfold remind_explicit. unfold mbind, M_bind. rewrite persist_spec.
  rewrite Hrule. cbn [schedule_rule default option_rect]. unfold id.
  assert (resolve (normalize_rrule (interval_rule X n)) (clock w)
          = Some (DateTrigger (clock w + 60))) as ->.
  { unfold resolve, interval_rule.
    rewrite (normalize_interval_rule X _ Hd Hne), (parse_scanned_rule X _ HX Hd).
    by destruct (PyStr.contains _ _). }
  fold tid.
  assert (truthy_id (Some tid) = true) as ->.
  { unfold truthy_id, tid. pose proof (lastrowid_nonneg (task w)).
    apply negb_true_iff, Z.eqb_neq. lia. }
  eexists. split; [done|]. simpl.
  rewrite last_snoc, lookup_insert_eq. by rewrite <-(assoc_L (++)).
Qed.

Lemma contains_once_digits t :
  all_digits t = true → PyStr.contains "FREQ=ONCE" t = false.
Proof.
  induction t as [|c t IH]; [done|].
  intros [Hc Ht]%all_digits_cons. simpl. rewrite (IH Ht).
  digit_case c Hc; reflexivity.
Qed.

Lemma resolve_interval_rule (X : Freq) (n now : Z) :
  X ≠ MINUTELY → X ≠ HOURLY → 0 ≤ n →
  resolve (normalize_rrule (interval_rule X n)) now
  = if interval_accepts (freq_unit X) n
    then Some (interval_trigger (freq_unit X) n) else None.
Proof.
  intros HX1 HX2 Hn. destruct (pretty_nonneg_digits n Hn) as (Hd & Hv & Hne).
  unfold resolve, interval_rule. rewrite (normalize_interval_rule X _ Hd Hne).
  replace (scanned_token X) with (freq_token X) by (by destruct X).
  rewrite (parse_interval_rule X _ n Hd Hv).
  replace (PyStr.contains "FREQ=ONCE" _) with false; [done|].
  destruct X; try done; simpl; change ("" +:+ pretty n) with (pretty n);
    by rewrite (contains_once_digits _ Hd).
Qed.

(** X10: a reminder asked for in seconds or days is scheduled at its
    interval when the interval trigger constructor accepts it: for a positive
    n the job of the new task repeats every n units, for n = 0 it repeats
    every second (the constructor replaces an empty interval by one second),
    and the user is told the reminder was created.  When the constructor
    rejects the interval the row is stored all the same, no job exists for
    it, and the user is told the reminder failed. *)
Theorem live_second_day_reminder chat_id action unit_ X n w :
  (unit_, X) ∈ explicit_units →
  X = SECONDLY ∨ X = DAILY →
  0 ≤ n →
  let tid := lastrowid (task w) + 1 in
  ∃ w', remind_explicit chat_id action unit_ n w = (Ok tt, w')
        ∧ row_schedule_rule <$> last (task w') = Some (Some (interval_rule X n))
        ∧ if interval_accepts (freq_unit X) n
          then job_trigger <$> jobs w' !! job_id_of tid
               = Some (if n =? 0 then IntervalTrigger seconds 1
                       else IntervalTrigger (freq_unit X) n)
               ∧ last (outbox w')
                 = Some (chat_id, "✅ Created reminder (task id=" +:+ pretty tid
                                    +:+ "). I’ll remind you to " +:+ action
                                    +:+ " per the schedule.")
          else jobs w' !! job_id_of tid = None
               ∧ outbox w' = (outbox w ++ [(chat_id, "⚠️ Failed to create reminder.")])%list.
Proof.
  intros Hu HX Hn tid.
  destruct (explicit_units_rule unit_ X n Hu) as [Hrule _].
  unfold remind_explicit. unfold mbind, M_bind. rewrite persist_spec.
  rewrite Hrule. cbn [schedule_rule default option_rect]. unfold id.
  rewrite resolve_interval_rule by (done || by destruct HX as [-> | ->]).
  fold tid.
  assert (truthy_id (Some tid) = true) as Htid.
  { unfold truthy_id, tid. pose proof (lastrowid_nonneg (task w)).
    apply negb_true_iff, Z.eqb_neq. lia. }
  destruct (interval_accepts (freq_unit X) n); [rewrite Htid|]; eexists;
    (split; [done|]); simpl; rewrite last_snoc; (split; [done|]).
  - by rewrite lookup_insert_eq, last_snoc.
  - by rewrite lookup_delete_eq.
Qed.

(** X11: a recurring order never reaches its store.  The plan the order
    branch builds has no store and no item field, so the job parameters
    [persist_task_and_schedule] derives name the empty store and, as item,
    the whole sentence; and the user is told the order was scheduled whether
    or not a job was installed. *)
Theorem recurring_order_has_no_store chat_id item_part store_part unit_ n w :
  let tid := lastrowid (task w) + 1 in
  ∃ w', remind_recurring_order chat_id item_part store_part unit_ n w = (Ok tt, w')
        ∧ (∀ j, jobs w' !! job_id_of tid = Some j →
                job_params j
                = JObj [("plan", JStr "order");
                        ("calls",
                          JArr [JObj [("tool", JStr "orders.place_order");
                                      ("args",
                                        JObj [("buyer_chat_id", JStr chat_id);
                                              ("store_identifier", JStr "");
                                              ("item",
                                                JStr ("Order " +:+ item_part
                                                        +:+ " from " +:+ store_part))])]])])
        ∧ ∃ shown, last (outbox w')
                   = Some (chat_id, "✅ Scheduled recurring order (task id=" +:+ shown
                                      +:+ ").")
                   ∧ (shown = "None" ↔ jobs w' !! job_id_of tid = None).
Proof.
  intros tid. unfold remind_recurring_order. unfold mbind, M_bind.
  rewrite persist_spec. fold tid.
  destruct (resolve _ _) as [t|]; eexists; (split; [done|]); simpl.
  - rewrite lookup_insert_eq, last_snoc. split; [by intros j [= <-]|].
    exists (pretty tid). split; [done|]. split; [|done].
    intros Hnone. exfalso. unfold tid in Hnone.
    pose proof (lastrowid_nonneg (task w)).
    destruct (lastrowid (task w) + 1) as [|p|p] eqn:Hp; [lia| |lia].
    change (pretty (Z.pos p)) with (pretty_N_go (N.pos p) "") in Hnone.
    pose proof (all_digits_pretty_N_go (N.pos p) "" eq_refl) as Hd.
    by rewrite Hnone in Hd.
  - rewrite lookup_delete_eq, last_snoc. split; [done|].
    exists "None". by split.
Qed.

(** X12: the order pattern also captures week and weeks, which the chain
    does not know: [every n weeks] becomes [RRULE:FREQ=DAILY;INTERVAL=1],
    which the parser reads as every single day, whatever n is. *)
Theorem recurring_order_weeks_become_daily unit_ n :
  unit_ ∈ ["week"; "weeks"] →
  recurring_order_rrule unit_ n = "RRULE:FREQ=DAILY;INTERVAL=1"
  ∧ parse_rrule_to_interval_kwargs (recurring_order_rrule unit_ n)
    = Ok (Some (PKwargs days 1)).
Proof.
  rewrite !elem_of_cons, elem_of_nil.
  intros H. destruct_or!; try done; subst unit_; split; reflexivity.
Qed.

(** **** Deleting a reminder *)

Lemma delete_reminder_spec chat_id text cmd arg rest rid w :
  PyStr.words text = cmd :: arg :: rest →
  py_int arg = Ok rid →
  sqlite_int rid = true →
  delete_reminder_command chat_id text w
  = (Ok tt,
     set_outbox (λ o, (o ++ [(chat_id, "✅ Reminder *" +:+ pretty rid
                                         +:+ "* deleted successfully.")])%list)
       (set_jobs (delete (job_id_of rid)) (set_task (map (disable_row rid)) w))).
Proof.
  intros Hwords Hint Hrid. unfold delete_reminder_command.
  rewrite Hwords. cbn [length Nat.ltb Nat.leb nth]. rewrite Hint.
  unfold try_exceptM, mbind, M_bind, disable_task, get_job, remove_job, send_message,
    mret, M_ret. rewrite Hrid.
  change ("reminder-" +:+ pretty rid) with (job_id_of rid).
  cbn [jobs set_task].
  destruct (jobs w !! job_id_of rid) eqn:Hjob; cbn [jobs set_task]; rewrite ?Hjob;
    [done|].
  do 2 f_equal. symmetry. apply set_jobs_id. cbn [jobs set_task]. by apply delete_id.
Qed.

Lemma delete_reminder_overflow chat_id text cmd arg rest rid w :
  PyStr.words text = cmd :: arg :: rest →
  py_int arg = Ok rid →
  sqlite_int rid = false →
  delete_reminder_command chat_id text w
  = (Ok tt,
     set_outbox (λ o, (o ++ [(chat_id, "⚠️ Could not delete reminder " +:+ pretty rid
                                         +:+ ": " +:+ str_exn OverflowError)])%list) w).
Proof.
  intros Hwords Hint Hrid. unfold delete_reminder_command.
  rewrite Hwords. cbn [length Nat.ltb Nat.leb nth]. rewrite Hint.
  unfold try_exceptM, mbind, M_bind, disable_task. by rewrite Hrid.
Qed.

Lemma disabled_rows_not_enabled rid rows r :
  r ∈ map (disable_row rid) rows → row_id r = rid → row_enabled r = 0.
Proof.
  intros (r0 & <- & Hr0)%list_elem_of_In%in_map_iff. unfold disable_row.
  by case_decide.
Qed.

(** X13: a deleted reminder stays deleted across a restart.  In a table
    SQLite can hold (every row id a 64-bit integer), after
    [/delete_reminder n] every row with id n is disabled, so recovery in a
    fresh process installs no job for n. *)
Theorem deleted_reminder_not_restored chat_id text cmd arg rest rid w now :
  Forall (λ r, sqlite_int (row_id r) = true) (task w) →
  PyStr.words text = cmd :: arg :: rest →
  py_int arg = Ok rid →
  let w' := (delete_reminder_command chat_id text w).2 in
  (∀ r, r ∈ task w' → row_id r = rid → row_enabled r = 0)
  ∧ jobs (restore_saved_reminders_from_db (startup (task w') now)).2
      !! job_id_of rid = None.
Proof.
  intros Htable Hwords Hint w'. unfold w'.
  destruct (sqlite_int rid) eqn:Hrid.
  - rewrite (delete_reminder_spec _ _ _ _ _ _ _ Hwords Hint Hrid).
    cbn [snd task set_outbox set_jobs set_task].
    split; [intros r; apply disabled_rows_not_enabled|].
    rewrite restore_spec. cbn [snd jobs set_jobs startup task clock].
    rewrite rescheduled_lookup_other; [done|].
    rewrite list_elem_of_fmap. intros (r & Heq & Hr). simpl in Heq.
    apply (inj job_id_of) in Heq.
    apply readable_prefix_subseteq, list_elem_of_In, filter_In in Hr as [Hr Hen].
    apply list_elem_of_In in Hr.
    pose proof (disabled_rows_not_enabled rid _ r Hr (eq_sym Heq)) as Hoff.
    rewrite Hoff in Hen. done.
  - rewrite (delete_reminder_overflow _ _ _ _ _ _ _ Hwords Hint Hrid).
    cbn [snd task set_outbox].
    assert (∀ r, r ∈ task w → row_id r ≠ rid) as Hnone.
    { intros r Hr <-. rewrite Forall_forall in Htable.
      specialize (Htable r Hr). congruence. }
    split; [intros r Hr Heq; by destruct (Hnone r Hr)|].
    rewrite restore_spec. cbn [snd jobs set_jobs startup task clock].
    rewrite rescheduled_lookup_other; [done|].
    rewrite list_elem_of_fmap. intros (r & Heq & Hr). simpl in Heq.
    apply (inj job_id_of) in Heq.
    apply readable_prefix_subseteq, list_elem_of_In, filter_In in Hr as [Hr Hen].
    apply list_elem_of_In in Hr. by destruct (Hnone r Hr).
Qed.

(** **** Registration followed by a restart *)

Lemma readable_prefix_all rows :
  Forall (λ r, malformed r = false) rows → readable_prefix rows = rows.
Proof.
  induction 1 as [|r rows Hr _ IH]; [done|]. simpl. by rewrite Hr, IH.
Qed.

(** X22: registration and recovery agree on a rule that needs no
    normalisation.  If [normalize_rrule] leaves the plan's rule as it is, the
    stored parameters decode, and every enabled record already in the table
    is readable, then after a restart at the same clock reading recovery
    gives the new task the trigger that the live registration gave it (or no
    job, where the live registration installed none). *)
Theorem recovery_agrees_on_normal_rule user_chat_id plan_obj r v w :
  schedule_rule plan_obj = Some r →
  normalize_rrule r = r →
  json_loads (json_dumps (internal_of user_chat_id plan_obj)) = Some v →
  Forall (λ row, malformed row = false)
    (List.filter (λ row, row_enabled row =? 1) (task w)) →
  let tid := lastrowid (task w) + 1 in
  let live := (persist_task_and_schedule user_chat_id plan_obj w).2 in
  let back := (restore_saved_reminders_from_db (startup (task live) (clock w))).2 in
  job_trigger <$> jobs back !! job_id_of tid
  = job_trigger <$> jobs live !! job_id_of tid.
Proof.
  intros Hrule Hnorm Hloads Hread tid live back.
  unfold back, live. rewrite persist_spec, restore_spec. fold tid.
  rewrite Hrule. cbn [default option_rect]. unfold id. rewrite Hnorm.
  set (row := stored_row tid _ user_chat_id plan_obj).
  assert (task (match resolve r (clock w) with
                | Some t =>
                    (Ok (Some tid),
                     set_outbox (λ o, (o ++ [(user_chat_id, scheduled_message tid)])%list)
                       (set_jobs (insert (job_id_of tid)
                                    (MkJob t (internal_of user_chat_id plan_obj)))
                          (set_task (λ rows, (rows ++ [row])%list) w)))
                | None =>
                    (Ok None,
                     set_jobs (delete (job_id_of tid))
                       (set_task (λ rows, (rows ++ [row])%list) w))
                end).2 = (task w ++ [row])%list) as ->.
  { by destruct (resolve r (clock w)). }
  cbn [snd jobs set_jobs startup task clock].
  rewrite List.filter_app. cbn [List.filter]. change (row_enabled row =? 1) with true.
  cbv iota.
  assert (malformed row = false) as Hrow.
  { unfold malformed, row, stored_row. cbn [row_params_json]. by rewrite Hloads. }
  rewrite readable_prefix_all by (apply Forall_app; split; [done | by repeat constructor]).
  rewrite rescheduled_snoc.
  assert (rule_of row = r) as ->.
  { unfold rule_of, row, stored_row. cbn [row_schedule_rule]. by rewrite Hrule. }
  change (row_id row) with tid.
  destruct (resolve r (clock w)) as [t|]; cbn [snd jobs set_outbox set_jobs];
    by rewrite ?lookup_insert_eq, ?lookup_delete_eq.
Qed.

(** **** One-time orders *)

Lemma rstrip_cons_keep c s :
  PyStr.is_space c = false → PyStr.rstrip (String c s) = String c (PyStr.rstrip s).
Proof. intros Hc. simpl. destruct (PyStr.rstrip s); by rewrite ?Hc. Qed.

(** The one-shot token survives normalisation, whatever follows it. *)
Lemma once_survives_normalize x :
  PyStr.contains "FREQ=ONCE" (normalize_rrule ("RRULE:FREQ=ONCE;RUN_AT=" +:+ x)) = true.
Proof.
  unfold normalize_rrule.
  change (PyStr.truthy _) with true. simpl negb. cbv iota.
  unfold PyStr.strip. change (PyStr.lstrip ?s) with s.
  change ("RRULE:FREQ=ONCE;RUN_AT=" +:+ x) with
    (String "R" (String "R" (String "U" (String "L" (String "E" (String ":"
     (String "F" (String "R" (String "E" (String "Q" (String "=" (String "O"
     (String "N" (String "C" (String "E" (String ";" (String "R" (String "U"
     (String "N" (String "_" (String "A" (String "T" (String "=" x))))))))))))))))))))))).
  rewrite !rstrip_cons_keep by done.
  generalize (PyStr.rstrip x). clear x. intros x.
  unfold PyStr.replace, re_sub_until. by simpl.
Qed.

(** X23: a one-time order is not scheduled for the time asked.  As long
    as the date asked for exists (the delay does not lead past the last date
    a [datetime] holds), the handler returns normally, the job of the new
    task fires once at now + 60 seconds whatever number and unit the user
    gave, the requested time is only kept as text in the stored rule, and the
    user is told the order was scheduled for the delay asked; when item and
    store are not empty the job carries them as they were given.  For a
    delay that leads past the last date the handler raises before anything is
    stored, scheduled or sent. *)
Theorem once_order_fires_in_60s isoformat chat_id item_part store_part unit_ num w :
  let tid := lastrowid (task w) + 1 in
  match datetime_add (clock w) (once_delay unit_ num) with
  | Ok run_dt =>
      ∃ w' params,
        remind_once_order isoformat chat_id item_part store_part unit_ num w = (Ok tt, w')
        ∧ run_dt = clock w + once_delay unit_ num
        ∧ row_schedule_rule <$> last (task w')
          = Some (Some ("RRULE:FREQ=ONCE;RUN_AT=" +:+ isoformat run_dt))
        ∧ jobs w' !! job_id_of tid = Some (MkJob (DateTrigger (clock w + 60)) params)
        ∧ (item_part ≠ "" → store_part ≠ "" →
           params = JObj [("plan", JStr "order");
                          ("calls",
                            JArr [JObj [("tool", JStr "orders.place_order");
                                        ("args",
                                          JObj [("buyer_chat_id", JStr chat_id);
                                                ("store_identifier", JStr store_part);
                                                ("item", JStr item_part)])]])])
        ∧ last (outbox w')
          = Some (chat_id,
                  "✅ Scheduled one-time order (task id=" +:+ pretty tid +:+ ") for *"
                    +:+ item_part +:+ "* from *" +:+ store_part +:+ "* in "
                    +:+ pretty num +:+ " " +:+ unit_ +:+ ".")
  | Raise e =>
      remind_once_order isoformat chat_id item_part store_part unit_ num w = (Raise e, w)
  end.
Proof.
  intros tid. unfold remind_once_order.
  unfold mbind at 1. unfold M_bind, datetime_now.
  unfold mbind at 1. unfold M_bind, lift.
  destruct (datetime_add (clock w) (once_delay unit_ num)) as [run_dt|e] eqn:Hadd;
    [|unfold mbind, M_bind; cbv beta; by rewrite Hadd].
  assert (run_dt = clock w + once_delay unit_ num) as Hdt.
  { unfold datetime_add in Hadd. by destruct (_ && _); simplify_eq. }
  unfold mbind, M_bind. rewrite persist_spec. fold tid.
  cbn [schedule_rule default option_rect]. unfold id.
  assert (∀ x, resolve (normalize_rrule ("RRULE:FREQ=ONCE;RUN_AT=" +:+ x)) (clock w)
               = Some (DateTrigger (clock w + 60))) as ->.
  { intros x. unfold resolve. by rewrite once_survives_normalize. }
  assert (truthy_id (Some tid) = true) as ->.
  { unfold truthy_id, tid. pose proof (lastrowid_nonneg (task w)).
    apply negb_true_iff, Z.eqb_neq. lia. }
  do 2 eexists. split; [done|]. split; [done|].
  cbn [jobs outbox task send_message snd set_outbox set_jobs set_task].
  rewrite lookup_insert_eq, !last_snoc. split; [done|]. split; [done|]. split; [|done].
  intros Hitem Hstore. unfold internal_of. cbn [task_type text extra_store extra_item].
  rewrite bool_decide_eq_true_2 by done.
  destruct item_part; [done|]. by destruct store_part.
Qed.

(** **** Gmail summary schedules *)

Lemma sub_go_digits_app matcher new t r :
  (∀ c s, is_digit c = true → matcher (String c s) = None) →
  all_digits t = true →
  PyStr.sub_go matcher new 0 (t +:+ r) = t +:+ PyStr.sub_go matcher new 0 r.
Proof.
  intros Hm. induction t as [|c t IH]; [done|].
  intros [Hc Ht]%all_digits_cons.
  change (String c t +:+ r) with (String c (t +:+ r)).
  cbn [PyStr.sub_go]. by rewrite (Hm c _ Hc), (IH Ht).
Qed.

Lemma split_digits_app t r :
  all_digits t = true →
  PyStr.split ";" (t +:+ String ";" r) = t :: PyStr.split ";" r.
Proof.
  induction t as [|c t IH]; [done|].
  intros [Hc Ht]%all_digits_cons.
  change (String c t +:+ String ";" r) with (String c (t +:+ String ";" r)).
  cbn [PyStr.split]. rewrite (IH Ht).
  digit_case c Hc; reflexivity.
Qed.

Lemma contains_once_digits_app t r :
  all_digits t = true →
  PyStr.contains "FREQ=ONCE" (t +:+ r) = PyStr.contains "FREQ=ONCE" r.
Proof.
  induction t as [|c t IH]; [done|].
  intros [Hc Ht]%all_digits_cons.
  change (String c t +:+ r) with (String c (t +:+ r)).
  cbn [PyStr.contains]. rewrite (IH Ht).
  digit_case c Hc; reflexivity.
Qed.

Ltac digit_free :=
  first [ done
        | intros; by apply literal_digit_head
        | intros; by apply until_match_digit_head ].

Ltac each_day H :=
  unfold summary_days in H; rewrite !elem_of_cons, elem_of_nil in H;
  destruct_or!; try done; subst.

Lemma normalize_summary_rule byday t1 t2 :
  byday ∈ summary_days →
  all_digits t1 = true → all_digits t2 = true → t2 ≠ "" →
  normalize_rrule (summary_head byday +:+ t1 +:+ ";BYMINUTE=" +:+ t2)
  = summary_head byday +:+ t1 +:+ ";BYMINUTE=" +:+ t2.
Proof.
  intros Hday H1 H2 Hne.
  assert (PyStr.strip (summary_head byday +:+ t1 +:+ ";BYMINUTE=" +:+ t2)
          = summary_head byday +:+ t1 +:+ ";BYMINUTE=" +:+ t2) as Hstrip.
  { unfold PyStr.strip.
    replace (PyStr.lstrip (summary_head byday +:+ t1 +:+ ";BYMINUTE=" +:+ t2))
      with (summary_head byday +:+ t1 +:+ ";BYMINUTE=" +:+ t2)
      by (by each_day Hday).
    destruct (rstrip_app_keeps' ";BYMINUTE=" t2 Hne (rstrip_digits t2 H2)) as [Ha Ha'].
    destruct (rstrip_app_keeps' t1 _ Ha Ha') as [Hb Hb'].
    by apply rstrip_app_keeps. }
  unfold normalize_rrule. rewrite Hstrip.
  replace (PyStr.truthy (summary_head byday +:+ t1 +:+ ";BYMINUTE=" +:+ t2)) with true
    by (by each_day Hday).
  simpl negb. cbv iota. unfold PyStr.replace, re_sub_until.
  each_day Hday;
    repeat (simpl; change ("" +:+ ?x) with x;
            rewrite ?sub_go_digits_app by digit_free;
            rewrite ?(sub_go_digit_free _ _ t2) by digit_free);
    reflexivity.
Qed.

Lemma rrule_parts_summary_rule byday t1 t2 :
  byday ∈ summary_days →
  all_digits t1 = true → all_digits t2 = true →
  let parts := rrule_parts (summary_head byday +:+ t1 +:+ ";BYMINUTE=" +:+ t2) in
  parts !! "INTERVAL" = None
  ∧ parts !! "BYHOUR" = Some t1
  ∧ parts !! "BYMINUTE" = Some t2
  ∧ parts !! "BYDAY" = byday.
Proof.
  intros Hday H1 H2. unfold rrule_parts, PyStr.replace.
  each_day Hday; simpl; change ("" +:+ ?x) with x;
    rewrite sub_go_digits_app by digit_free; simpl;
    rewrite (sub_go_digits _ _ H2), (split_digits_app _ _ H1); simpl;
    rewrite (split_digits _ H2); simpl;
    unfold parts_step; simpl;
    rewrite !(strip_digits _ H1), !(upper_digits _ H1),
            !(strip_digits _ H2), !(upper_digits _ H2);
    repeat split;
    repeat first [ rewrite lookup_insert_eq | rewrite lookup_insert_ne by done ];
    by rewrite ?lookup_empty.
Qed.

Lemma contains_once_summary_rule byday t1 t2 :
  byday ∈ summary_days →
  all_digits t1 = true → all_digits t2 = true →
  PyStr.contains "FREQ=ONCE" (summary_head byday +:+ t1 +:+ ";BYMINUTE=" +:+ t2) = false.
Proof.
  intros Hday H1 H2.
  each_day Hday; simpl; change ("" +:+ ?x) with x;
    rewrite (contains_once_digits_app _ _ H1); simpl;
    change ("" +:+ ?x) with x; by rewrite (contains_once_digits _ H2).
Qed.

Lemma resolve_summary_rule byday h m now :
  byday ∈ summary_days → 0 ≤ h → 0 ≤ m →
  resolve (normalize_rrule (summary_rrule byday h m)) now
  = Some (if cron_accepts (default "*" byday) h m
          then CronTrigger (MkCron (default "*" byday) h m)
          else DateTrigger (now + 60)).
Proof.
  intros Hday Hh Hm.
  destruct (pretty_nonneg_digits h Hh) as (Hd1 & Hv1 & Hne1).
  destruct (pretty_nonneg_digits m Hm) as (Hd2 & Hv2 & Hne2).
  assert (summary_rrule byday h m
          = summary_head byday +:+ pretty h +:+ ";BYMINUTE=" +:+ pretty m) as ->.
  { by each_day Hday. }
  rewrite (normalize_summary_rule _ _ _ Hday Hd1 Hd2 Hne2).
  unfold resolve. rewrite (contains_once_summary_rule _ _ _ Hday Hd1 Hd2).
  destruct (rrule_parts_summary_rule byday _ _ Hday Hd1 Hd2) as (Hi & Hbh & Hbm & Hbd).
  unfold parse_rrule_to_interval_kwargs.
  replace (negb (PyStr.truthy _) || negb (PyStr.startswith _ "RRULE:")) with false
    by (by each_day Hday).
  unfold parse_body. rewrite Hi, Hbh, Hbm, Hbd. unfold int_get, int_or, given.
  replace (PyStr.truthy (pretty h)) with true by (by destruct (pretty h)).
  replace (PyStr.truthy (pretty m)) with true by (by destruct (pretty m)).
  rewrite (py_int_digits _ _ Hd1 Hv1), (py_int_digits _ _ Hd2 Hv2).
  unfold mbind, result_bind, new_CronTrigger. cbn [orb].
  replace (if match byday with Some v => PyStr.truthy v | None => false end
           then default "*" byday else "*") with (default "*" byday)
    by (by each_day Hday).
  by destruct (cron_accepts _ h m).
Qed.

Lemma to_24h_nonneg h ampm : 0 ≤ h → 0 ≤ to_24h h ampm.
Proof. intros Hh. unfold to_24h. repeat case_match; lia. Qed.

Lemma truthy_fresh_id rows : truthy_id (Some (lastrowid rows + 1)) = true.
Proof.
  unfold truthy_id. pose proof (lastrowid_nonneg rows).
  apply negb_true_iff, Z.eqb_neq. lia.
Qed.

(** X24: [/emailsummary every day at H[:MM][am|pm]].  For every hour and
    minute the pattern can capture, the handler returns normally and the rule
    it builds survives normalisation and parsing: the job of the new task is
    a cron trigger at the hour on the 24-hour clock and the minute, any day,
    when the cron constructor accepts them, and the one-shot fallback at
    now + 60 seconds when it does not.  Either way the user is told the daily
    summary was scheduled, and the job is a plain message with the text
    "Daily Gmail summary". *)
Theorem daily_summary_schedule chat_id hour0 minute_ ampm w :
  0 ≤ hour0 → 0 ≤ minute_ →
  let h := to_24h hour0 ampm in
  let tid := lastrowid (task w) + 1 in
  ∃ w', email_summary_daily chat_id hour0 minute_ ampm w = (Ok tt, w')
        ∧ jobs w' !! job_id_of tid
          = Some (MkJob (if cron_accepts "*" h minute_
                         then CronTrigger (MkCron "*" h minute_)
                         else DateTrigger (clock w + 60))
                    (JObj [("plan", JStr "email_summary");
                           ("calls",
                             JArr [JObj [("tool", JStr "messaging.send_message");
                                         ("args",
                                           JObj [("chat_id", JStr chat_id);
                                                 ("text", JStr "Daily Gmail summary")])]])]))
        ∧ last (outbox w')
          = Some (chat_id,
                  "✅ Scheduled Gmail summary every day at " +:+ pad2 h +:+ ":"
                    +:+ pad2 minute_ +:+ ". (task id=" +:+ pretty tid +:+ ")").
Proof.
  intros Hh Hm h tid. unfold email_summary_daily. unfold mbind, M_bind.
  rewrite persist_spec. fold tid. fold h.
  cbn [schedule_rule default option_rect]. unfold id.
  rewrite (resolve_summary_rule None h minute_ (clock w))
    by (try apply to_24h_nonneg; done || (unfold summary_days; left)).
  unfold tid at 1. rewrite truthy_fresh_id. fold tid.
  eexists. split; [done|]. cbn [jobs outbox send_message snd set_outbox set_jobs].
  by rewrite lookup_insert_eq, last_snoc.
Qed.

Ltac pick_elem := repeat first [ apply list_elem_of_here | apply list_elem_of_further ].

Lemma byday_of_known day_token :
  day_token ∈ weekday_map.*1 →
  Some (byday_of day_token) ∈ summary_days ∧ (day_token, byday_of day_token) ∈ weekday_map.
Proof.
  unfold weekday_map at 1. cbn [fmap list_fmap fst].
  rewrite !elem_of_cons, elem_of_nil.
  intros H. destruct_or!; try done; subst day_token;
    (split; [unfold summary_days | unfold weekday_map]); cbn; pick_elem.
Qed.

Lemma byday_of_code day_token :
  day_token ∈ weekday_map.*1 → byday_of day_token ∈ rrule_day_codes.
Proof.
  unfold weekday_map at 1. cbn [fmap list_fmap fst].
  rewrite !elem_of_cons, elem_of_nil.
  intros H. destruct_or!; try done; subst day_token;
    unfold rrule_day_codes; cbn; pick_elem.
Qed.

(** X25: the weekly Gmail summary is never scheduled weekly.
    [weekday_map] turns the day of [/emailsummary weekly on DAY at
    H[:MM][am|pm]] into a two-letter iCalendar day code, and the parser hands
    that code to [CronTrigger] as it is.  [CronTrigger] names the days mon to
    sun and refuses the code (the hypothesis), so the parser resolves no
    trigger: for every day name of the pattern and every hour and minute it
    can capture, the handler returns normally, the stored rule is the weekly
    one, the job of the new task is the one-shot fallback at now + 60
    seconds, and the user is told the weekly summary was scheduled. *)
Theorem weekly_summary_schedule chat_id day_token hour0 minute_ ampm w :
  (∀ d h m, d ∈ rrule_day_codes → cron_accepts d h m = false) →
  day_token ∈ weekday_map.*1 →
  0 ≤ hour0 → 0 ≤ minute_ →
  let h := to_24h hour0 ampm in
  let d := byday_of day_token in
  let tid := lastrowid (task w) + 1 in
  ∃ w', email_summary_weekly chat_id day_token hour0 minute_ ampm w = (Ok tt, w')
        ∧ (day_token, d) ∈ weekday_map
        ∧ d ∈ rrule_day_codes
        ∧ row_schedule_rule <$> last (task w')
          = Some (Some (summary_rrule (Some d) h minute_))
        ∧ job_trigger <$> jobs w' !! job_id_of tid = Some (DateTrigger (clock w + 60))
        ∧ last (outbox w')
          = Some (chat_id,
                  "✅ Scheduled weekly Gmail summary on " +:+ PyStr.capitalize day_token
                    +:+ " at " +:+ pad2 h +:+ ":" +:+ pad2 minute_
                    +:+ ". (task id=" +:+ pretty tid +:+ ")").
Proof.
  intros Hrefuse Hday Hh Hm h d tid. unfold email_summary_weekly. unfold mbind, M_bind.
  rewrite persist_spec. fold tid. fold h. fold d.
  cbn [schedule_rule default option_rect]. unfold id.
  rewrite (resolve_summary_rule (Some d) h minute_ (clock w))
    by (try apply to_24h_nonneg; done || by apply byday_of_known).
  cbn [default option_rect]. unfold id.
  rewrite (Hrefuse d h minute_) by (by apply byday_of_code).
  unfold tid at 1. rewrite truthy_fresh_id. fold tid.
  eexists. split; [done|].
  cbn [jobs outbox task send_message snd set_outbox set_jobs set_task].
  rewrite lookup_insert_eq, !last_snoc.
  split; [by apply byday_of_known|]. split; [by apply byday_of_code|]. done.
Qed.

End Scheduling.

(** ** Properties of the code around the scheduler *)

(** X14: a non-empty rule leaves [normalize_rrule] with the [RRULE:] prefix,
    so the parser's prefix guard never turns a normalised rule away; the
    empty rule is returned as it is. *)
Theorem normalize_rrule_prefixed rr :
  if PyStr.truthy rr
  then PyStr.startswith (normalize_rrule rr) "RRULE:" = true
  else normalize_rrule rr = rr.
Proof.
  destruct rr as [|c rr]; [done|]. unfold normalize_rrule.
  cbn [PyStr.truthy negb]. cbv iota.
  match goal with |- context [re_sub_until ?x] => set (y := re_sub_until x) end.
  destruct (PyStr.startswith y "RRULE:") eqn:Hy; simpl negb; cbv iota; [done|].
  clearbody y. unfold PyStr.startswith. simpl. by destruct y.
Qed.

Lemma filter_disable_other rid rows :
  List.filter (λ r, negb (row_id r =? rid)) (map (disable_row rid) rows)
  = List.filter (λ r, negb (row_id r =? rid)) rows.
Proof.
  induction rows as [|r rows IH]; [done|]. cbn [map List.filter].
  unfold disable_row at 1 2. destruct (decide (row_id r = rid)) as [Hr | Hr].
  - cbn [row_id]. replace (row_id r =? rid) with true by (symmetry; lia).
    simpl. apply IH.
  - replace (row_id r =? rid) with false by (symmetry; lia).
    simpl. by rewrite IH.
Qed.

(** X15: [/delete_reminder n] returns normally for every integer n.  When
    n is a 64-bit integer it disables every row with id n, removes the job of
    n, leaves every other row and job as it was, and answers that the
    reminder was deleted, also when no task with id n exists.  For any other
    n the database refuses the id: nothing changes and the answer is that the
    reminder could not be deleted. *)
Theorem delete_reminder_disables_and_unschedules chat_id text cmd arg rest rid w :
  PyStr.words text = cmd :: arg :: rest →
  py_int arg = Ok rid →
  if sqlite_int rid then
    ∃ w', delete_reminder_command chat_id text w = (Ok tt, w')
          ∧ jobs w' !! job_id_of rid = None
          ∧ (∀ id, id ≠ job_id_of rid → jobs w' !! id = jobs w !! id)
          ∧ (∀ r, r ∈ task w' → row_id r = rid → row_enabled r = 0)
          ∧ List.filter (λ r, negb (row_id r =? rid)) (task w')
            = List.filter (λ r, negb (row_id r =? rid)) (task w)
          ∧ length (task w') = length (task w)
          ∧ outbox w'
            = (outbox w ++ [(chat_id, "✅ Reminder *" +:+ pretty rid
                                        +:+ "* deleted successfully.")])%list
  else
    delete_reminder_command chat_id text w
    = (Ok tt,
       set_outbox (λ o, (o ++ [(chat_id, "⚠️ Could not delete reminder " +:+ pretty rid
                                           +:+ ": " +:+ str_exn OverflowError)])%list) w).
Proof.
  intros Hwords Hint. destruct (sqlite_int rid) eqn:Hrid.
  - rewrite (delete_reminder_spec _ _ _ _ _ _ _ Hwords Hint Hrid).
    eexists. split; [done|]. cbn [jobs task outbox set_outbox set_jobs set_task].
    split; [apply lookup_delete_eq|].
    split; [intros id Hid; by apply lookup_delete_ne|].
    split; [intros r; apply disabled_rows_not_enabled|].
    split; [apply filter_disable_other | by rewrite length_map].
  - by apply (delete_reminder_overflow _ _ cmd arg rest).
Qed.

(** X16: [/delete_reminder] without an id, or with an id that is no integer
    literal, only sends a usage or error message: no row, no job and nothing
    else changes. *)
Theorem delete_reminder_rejects_bad_argument chat_id text w :
  ((length (PyStr.words text) < 2)%nat →
   delete_reminder_command chat_id text w
   = (Ok tt, set_outbox
               (λ o, (o ++ [(chat_id, "Usage: /delete_reminder <reminder_id>")])%list) w))
  ∧ ((2 ≤ length (PyStr.words text))%nat →
     (∃ e, py_int (nth 1 (PyStr.words text) "") = Raise e) →
     delete_reminder_command chat_id text w
     = (Ok tt, set_outbox
                 (λ o, (o ++ [(chat_id, "Please provide a valid numeric reminder ID.")])%list)
                 w)).
Proof.
  unfold delete_reminder_command. split.
  - intros Hlen. by apply Nat.ltb_lt in Hlen as ->.
  - intros Hlen [e He]. apply Nat.ltb_ge in Hlen as ->. by rewrite He.
Qed.

(** *** The offset file *)

Lemma strip_pretty (z : Z) : PyStr.strip (pretty z) = pretty z.
Proof.
  destruct z as [|p|p]; [done| |].
  - destruct (pretty_nonneg_digits (Z.pos p) ltac:(lia)) as (Hd & _ & _).
    by apply strip_digits.
  - destruct (pretty_nonneg_digits (Z.pos p) ltac:(lia)) as (Hd & _ & Hne).
    change (pretty (Z.neg p)) with ("-" +:+ pretty (Z.pos p)).
    unfold PyStr.strip. change (PyStr.lstrip ?s) with s.
    apply rstrip_app_keeps; [done|]. by apply rstrip_digits.
Qed.

Lemma py_int_pretty (z : Z) : py_int (pretty z) = Ok z.
Proof.
  destruct (decide (0 ≤ z)) as [Hz | Hz].
  - destruct (pretty_nonneg_digits z Hz) as (Hd & Hv & _). by apply py_int_digits.
  - destruct z as [|p|p]; [lia..|].
    destruct (pretty_nonneg_digits (Z.pos p) ltac:(lia)) as (Hd & Hv & _).
    unfold py_int. rewrite strip_pretty.
    change (pretty (Z.neg p)) with (String "-" (pretty (Z.pos p))).
    cbv iota beta. by rewrite Hv.
Qed.

(** X17: the offset file round trip.  What [save_offset] writes,
    [load_offset] reads back as the same integer, for every integer, negative
    ones included, and whatever the file held before.  A write that fails
    after the file was opened loses the offset stored before: the file is
    left empty and reads as no offset. *)
Theorem offset_round_trip (offset : Z) (file : option string) :
  load_offset (save_offset Written offset file) = Some offset
  ∧ load_offset (save_offset WriteFails offset file) = None.
Proof.
  split; [|done]. unfold load_offset, save_offset.
  by rewrite strip_pretty, py_int_pretty.
Qed.

(** *** Notes *)

Lemma note_matches_spec user nid n :
  note_matches user nid n = true ↔ note_user_chat_id n = user ∧ note_id n = nid.
Proof.
  unfold note_matches. rewrite andb_true_iff, !bool_decide_eq_true. done.
Qed.

Lemma note_matches_set_pinned user nid v n :
  note_matches user nid (set_pinned v n) = note_matches user nid n.
Proof. done. Qed.

(** X18: for a note id that is a 64-bit integer, [delete_note] removes
    exactly the notes of that user with that id and keeps every other note,
    in particular another user's note with the same id; it returns [True]
    exactly when there was such a note, and deleting again returns [False]
    and changes nothing.  For any other id it raises and the table is as it
    was. *)
Theorem delete_note_only_own user nid notes :
  if sqlite_int nid then
    ∃ deleted notes',
      delete_note user nid notes = (Ok deleted, notes')
      ∧ (deleted = true
         ↔ ∃ n, n ∈ notes ∧ note_user_chat_id n = user ∧ note_id n = nid)
      ∧ (∀ n, n ∈ notes'
              ↔ n ∈ notes ∧ ¬ (note_user_chat_id n = user ∧ note_id n = nid))
      ∧ delete_note user nid notes' = (Ok false, notes')
  else delete_note user nid notes = (Raise OverflowError, notes).
Proof.
  unfold delete_note, rowcount_positive.
  destruct (sqlite_int nid); [|done].
  do 2 eexists. split; [done|].
  split; [|split].
  - rewrite existsb_exists. split.
    + intros (n & Hn & Hm). exists n.
      split; [by apply list_elem_of_In | by apply note_matches_spec].
    + intros (n & Hn & Hm). exists n.
      split; [by apply list_elem_of_In | by apply note_matches_spec].
  - intros n. rewrite !list_elem_of_In, filter_In, negb_true_iff.
    rewrite <-not_true_iff_false, note_matches_spec. done.
  - f_equal.
    + f_equal. apply not_true_iff_false. intros (n & Hn & Hm)%existsb_exists.
      apply filter_In in Hn as [_ Hn]. by rewrite Hm in Hn.
    + induction notes as [|n notes IH]; [done|]. simpl.
      destruct (note_matches user nid n) eqn:Heq; simpl; [done|].
      by rewrite Heq, IH.
Qed.

(** X19: for a note id that is a 64-bit integer, [pin_note] and
    [unpin_note] return [True] exactly when the user has a note with that id;
    afterwards each such note carries the new pin state, and no other note
    and no other column changes.  The last write wins: unpinning after
    pinning is unpinning.  For any other id they raise and the table is as it
    was. *)
Theorem pin_unpin_own_notes v user nid notes :
  if sqlite_int nid then
    ∃ updated notes',
      update_pinned v user nid notes = (Ok updated, notes')
      ∧ (updated = true
         ↔ ∃ n, n ∈ notes ∧ note_user_chat_id n = user ∧ note_id n = nid)
      ∧ (∀ n, n ∈ notes' →
              note_user_chat_id n = user → note_id n = nid → note_pinned n = v)
      ∧ List.filter (λ n, negb (note_matches user nid n)) notes'
        = List.filter (λ n, negb (note_matches user nid n)) notes
      ∧ map (set_pinned 0) notes' = map (set_pinned 0) notes
      ∧ unpin_note user nid (pin_note user nid notes).2 = unpin_note user nid notes
  else
    update_pinned v user nid notes = (Raise OverflowError, notes)
    ∧ pin_note user nid notes = (Raise OverflowError, notes)
    ∧ unpin_note user nid notes = (Raise OverflowError, notes).
Proof.
  unfold unpin_note, pin_note, update_pinned, rowcount_positive.
  destruct (sqlite_int nid); [|done].
  do 2 eexists. split; [done|]. cbn [fst snd].
  split; [|split; [|split; [|split]]].
  - rewrite existsb_exists. split.
    + intros (n & Hn & Hm). exists n.
      split; [by apply list_elem_of_In | by apply note_matches_spec].
    + intros (n & Hn & Hm). exists n.
      split; [by apply list_elem_of_In | by apply note_matches_spec].
  - intros n (n0 & <- & Hn0)%list_elem_of_In%in_map_iff.
    destruct (note_matches user nid n0) eqn:Heq; [done|].
    intros Hu Hi.
    assert (note_matches user nid n0 = true) by by apply note_matches_spec.
    congruence.
  - induction notes as [|n notes IH]; [done|]. cbn [map List.filter].
    destruct (note_matches user nid n) eqn:Heq.
    + assert (note_matches user nid (set_pinned v n) = true) as ->
        by (apply note_matches_spec; by apply note_matches_spec in Heq).
      apply IH.
    + rewrite Heq. cbn [negb]. by rewrite IH.
  - induction notes as [|n notes IH]; [done|]. simpl. rewrite IH.
    by destruct (note_matches user nid n).
  - f_equal.
    + f_equal. induction notes as [|n notes IH]; [done|]. cbn [map existsb]. rewrite IH.
      destruct (note_matches user nid n) eqn:Heq;
        by rewrite ?note_matches_set_pinned, Heq.
    + induction notes as [|n notes IH]; [done|]. cbn [map]. rewrite IH.
      destruct (note_matches user nid n) eqn:Heq;
        by rewrite ?note_matches_set_pinned, Heq.
Qed.


(** *** Line wrapping *)

Lemma skip_add a b s : PyStr.skip (a + b) s = PyStr.skip b (PyStr.skip a s).
Proof.
  revert s. induction a as [|a IH]; intros s; [done|].
  destruct s as [|c s]; simpl; [by destruct b | apply IH].
Qed.

Lemma length_skip n s : String.length (PyStr.skip n s) = (String.length s - n)%nat.
Proof.
  revert s. induction n as [|n IH]; intros s; simpl; [lia|].
  destruct s as [|c s]; simpl; [done | apply IH].
Qed.

Lemma length_take n s : String.length (PyStr.take n s) = (n `min` String.length s)%nat.
Proof.
  revert s. induction n as [|n IH]; intros s; [done|].
  destruct s as [|c s]; simpl; [done | by rewrite IH].
Qed.

Lemma take_skip n s : PyStr.take n s +:+ PyStr.skip n s = s.
Proof.
  revert s. induction n as [|n IH]; intros s; [done|].
  destruct s as [|c s]; [done|].
  change (String c (PyStr.take n s +:+ PyStr.skip n s) = String c s). by rewrite IH.
Qed.

Lemma chunk_count n len :
  (0 < n)%nat → (0 < len)%nat →
  ((len + n - 1) / n = S ((len - n + n - 1) / n))%nat.
Proof.
  intros Hn Hlen.
  replace (len + n - 1)%nat with (len - 1 + 1 * n)%nat by lia.
  rewrite Nat.div_add by lia.
  destruct (decide (n ≤ len)%nat) as [Hle | Hgt].
  - replace (len - n + n - 1)%nat with (len - 1)%nat by lia. lia.
  - replace (len - n + n - 1)%nat with (n - 1)%nat by lia.
    rewrite !Nat.div_small by lia. lia.
Qed.

Lemma wrap_nil n : wrap n "" = [].
Proof.
  unfold wrap, range_step. simpl.
  destruct n as [|n]; [done|].
  replace (S n - 1)%nat with n by lia. by rewrite Nat.div_small by lia.
Qed.

Lemma wrap_cons n line :
  (0 < n)%nat → line ≠ "" →
  wrap n line = PyStr.take n line :: wrap n (PyStr.skip n line).
Proof.
  intros Hn Hline. unfold wrap, range_step.
  assert (0 < String.length line)%nat as Hlen by (destruct line; [done | simpl; lia]).
  rewrite (chunk_count n _ Hn Hlen), length_skip.
  rewrite <-cons_seq, <-seq_shift. cbn [map].
  f_equal.
  - unfold PyStr.slice. simpl. by replace (n - 0)%nat with n by lia.
  - rewrite !map_map. apply map_ext. intros k. unfold PyStr.slice.
    replace (S k * n + n - S k * n)%nat with n by lia.
    replace (k * n + n - k * n)%nat with n by lia.
    replace (S k * n)%nat with (n + k * n)%nat by lia.
    by rewrite skip_add.
Qed.

(** X20: [generate_notes_pdf] cuts a note line into pieces of [max_chars]
    characters without losing or repeating anything: the pieces, end to end,
    are the line. *)
Theorem wrap_pieces_rebuild_line n line :
  (0 < n)%nat → foldr String.app "" (wrap n line) = line.
Proof.
  intros Hn.
  remember (String.length line) as len eqn:Hlen.
  revert line Hlen. induction (lt_wf len) as [len _ IH]. intros line Hlen.
  destruct (decide (line = "")) as [-> | Hne]; [by rewrite wrap_nil|].
  rewrite (wrap_cons n line Hn Hne). cbn [foldr].
  rewrite (IH (String.length (PyStr.skip n line))); [apply take_skip| |done].
  rewrite length_skip. destruct line; [done|]. simpl in *. lia.
Qed.

(** X21: every piece of a wrapped line holds at least one and at most
    [max_chars] characters, and a line of [len] characters gives
    [ceil(len / max_chars)] pieces; the empty line gives none. *)
Theorem wrap_piece_lengths n line :
  (0 < n)%nat →
  Forall (λ piece, (0 < String.length piece ≤ n)%nat) (wrap n line)
  ∧ length (wrap n line) = ((String.length line + n - 1) / n)%nat.
Proof.
  intros Hn. split; [|unfold wrap, range_step; by rewrite !length_map, length_seq].
  remember (String.length line) as len eqn:Hlen.
  revert line Hlen. induction (lt_wf len) as [len _ IH]. intros line Hlen.
  destruct (decide (line = "")) as [-> | Hne]; [by rewrite wrap_nil|].
  rewrite (wrap_cons n line Hn Hne). apply Forall_cons. split.
  - rewrite length_take. destruct line; [done|]. simpl. lia.
  - apply (IH (String.length (PyStr.skip n line))); [|done].
    rewrite length_skip. destruct line; [done|]. simpl in *. lia.
Qed.


(** ** The code on concrete inputs *)

Example normalize_until :
  normalize_rrule " FREQ=DAILY;UNTIL=20250101T000000Z;INTERVAL=3 "
  = "RRULE:FREQ=DAILY;INTERVAL=3".
Proof. vm_compute. reflexivity. Qed.

(** The day code of a BYDAY value is no day name of the cron constructor:
    the rule the weekly summary builds parses to no trigger; with the day
    named as the constructor names it, the rule parses to a cron trigger. *)
Example weekly_monday_nine :
  parse_rrule_to_interval_kwargs cron_checks "RRULE:FREQ=WEEKLY;BYDAY=MO;BYHOUR=9;BYMINUTE=0"
  = Ok None
  ∧ parse_rrule_to_interval_kwargs cron_checks
      "RRULE:FREQ=WEEKLY;BYDAY=MON;BYHOUR=9;BYMINUTE=0"
    = Ok (Some (PCron (MkCron "MON" 9 0))).
Proof. vm_compute. split; reflexivity. Qed.

(** C1: the singular misspellings are normalised, the plural ones are
    not.  [FREQ=DAY] becomes [FREQ=DAILY] and parses to an interval of two
    days; in [FREQ=DAYS], [FREQ=MINUTES] and [FREQ=HOURS] the singular
    replacement fires first and leaves the trailing S behind, the plural
    replacement never matches, and the result parses to no trigger. *)
Theorem plural_misspelling_not_normalised :
  normalize_rrule "RRULE:FREQ=DAY;INTERVAL=2" = "RRULE:FREQ=DAILY;INTERVAL=2"
  ∧ parse_rrule_to_interval_kwargs cron_checks (normalize_rrule "RRULE:FREQ=DAY;INTERVAL=2")
    = Ok (Some (PKwargs days 2))
  ∧ normalize_rrule "RRULE:FREQ=DAYS;INTERVAL=2" = "RRULE:FREQ=DAILYS;INTERVAL=2"
  ∧ parse_rrule_to_interval_kwargs cron_checks (normalize_rrule "RRULE:FREQ=DAYS;INTERVAL=2")
    = Ok None
  ∧ normalize_rrule "RRULE:FREQ=MINUTES;INTERVAL=2" = "RRULE:FREQ=MINUTELYS;INTERVAL=2"
  ∧ parse_rrule_to_interval_kwargs cron_checks (normalize_rrule "RRULE:FREQ=MINUTES;INTERVAL=2")
    = Ok None
  ∧ normalize_rrule "RRULE:FREQ=HOURS;INTERVAL=2" = "RRULE:FREQ=HOURLYS;INTERVAL=2"
  ∧ parse_rrule_to_interval_kwargs cron_checks (normalize_rrule "RRULE:FREQ=HOURS;INTERVAL=2")
    = Ok None.
Proof. vm_compute. repeat split; reflexivity. Qed.

(** The same scan damages the canonical spelling of two frequencies: the
    singular pattern is a prefix of the canonical token. *)
Example canonical_minutely_damaged :
  normalize_rrule "RRULE:FREQ=MINUTELY;INTERVAL=5" = "RRULE:FREQ=MINUTELYLY;INTERVAL=5"
  ∧ normalize_rrule "RRULE:FREQ=HOURLY;INTERVAL=5" = "RRULE:FREQ=HOURLYLY;INTERVAL=5"
  ∧ normalize_rrule "RRULE:FREQ=DAILY;INTERVAL=5" = "RRULE:FREQ=DAILY;INTERVAL=5".
Proof. vm_compute. repeat split; reflexivity. Qed.


(** C3, counterexample: an unrecognised frequency does not become an hourly
    interval; the job installed is the one-shot fallback. *)
Lemma unknown_freq_is_not_hourly :
  parse_rrule_to_interval_kwargs cron_checks "RRULE:FREQ=YEARLY" = Ok None
  ∧ jobs (schedule_job_for_task cron_checks timedelta_in_range 1 JNull "RRULE:FREQ=YEARLY"
            (startup [] 0)).2 !! "reminder-1"
    = Some (MkJob (DateTrigger 60) JNull).
Proof. vm_compute. split; reflexivity. Qed.

(** C5, counterexample: a rule that carries BYHOUR with a value that is no
    integer resolves to no cron trigger; the job installed is the one-shot
    fallback. *)
Lemma byhour_rule_without_cron :
  rrule_parts "RRULE:FREQ=DAILY;BYHOUR=NOON" !! "BYHOUR" = Some "NOON"
  ∧ parse_rrule_to_interval_kwargs cron_checks "RRULE:FREQ=DAILY;BYHOUR=NOON" = Ok None
  ∧ jobs (schedule_job_for_task cron_checks timedelta_in_range 1 JNull
            "RRULE:FREQ=DAILY;BYHOUR=NOON" (startup [] 0)).2 !! "reminder-1"
    = Some (MkJob (DateTrigger 60) JNull).
Proof. vm_compute. repeat split; reflexivity. Qed.

(** C7, counterexample: a rule whose interval is outside the range of
    [timedelta].  The parser resolves interval keywords, the constructor
    raises on them, the call returns [False], and the task is left without a
    job: no fallback is installed. *)
Lemma rejected_interval_leaves_task_without_job :
  parse_rrule_to_interval_kwargs cron_checks "RRULE:FREQ=WEEKLY;INTERVAL=200000000"
  = Ok (Some (PKwargs weeks 200000000))
  ∧ timedelta_in_range weeks 200000000 = false
  ∧ schedule_job_for_task cron_checks timedelta_in_range 1 JNull
      "RRULE:FREQ=WEEKLY;INTERVAL=200000000" (startup [] 0)
    = (Ok false, startup [] 0)
  ∧ size (jobs (schedule_job_for_task cron_checks timedelta_in_range 1 JNull
                  "RRULE:FREQ=WEEKLY;INTERVAL=200000000" (startup [] 0)).2)
    = 0%nat.
Proof. vm_compute. repeat split; reflexivity. Qed.

(** C8, counterexample: the second call carries an interval outside the
    range of [timedelta]; the constructor raises, the call returns [False],
    and the job of the first call is already gone: no live job is left. *)
Lemma failed_reschedule_leaves_no_job :
  (schedule_job_for_task cron_checks timedelta_in_range 1 JNull
     "RRULE:FREQ=MINUTELY;INTERVAL=1" (startup [] 0)).1 = Ok true
  ∧ schedule_job_for_task cron_checks timedelta_in_range 1 JNull
      "RRULE:FREQ=DAILY;INTERVAL=10000000000"
      (schedule_job_for_task cron_checks timedelta_in_range 1 JNull
         "RRULE:FREQ=MINUTELY;INTERVAL=1" (startup [] 0)).2
    = (Ok false, startup [] 0).
Proof. vm_compute. split; reflexivity. Qed.

(** C9: live registration normalises the rule, recovery does not.  A plan
    whose rule lacks the [RRULE:] prefix is scheduled as an interval of two
    days; the rule is stored as it came; after a restart the stored rule is
    parsed as it is, resolves to no trigger, and the record comes back as a
    one-shot job at now + 60 seconds (or not at all, if its parameters do not
    decode), whatever the JSON codec does. *)
Theorem recovery_skips_normalization
    (json_loads : string → option json) (json_dumps : json → string) :
  let plan := MkPlan None (Some "stretch") (Some "FREQ=DAILY;INTERVAL=2")
                None None None None None in
  let live := (persist_task_and_schedule cron_checks timedelta_in_range json_dumps "42" plan
                 (startup [] 0)).2 in
  let back := (restore_saved_reminders_from_db cron_checks timedelta_in_range json_loads
                 (startup (task live) 0)).2 in
  job_trigger <$> jobs live !! "reminder-1" = Some (IntervalTrigger days 2)
  ∧ row_schedule_rule <$> task live = [Some "FREQ=DAILY;INTERVAL=2"]
  ∧ job_trigger <$> jobs back !! "reminder-1"
    = match json_loads (json_dumps (internal_of "42" plan)) with
      | Some _ => Some (DateTrigger 60)
      | None => None
      end.
Proof.
  intros plan live back.
  split; [vm_compute; reflexivity|]. split; [vm_compute; reflexivity|].
  destruct (json_loads _) as [v|] eqn:Hloads;
    vm_compute in Hloads; vm_compute; rewrite Hloads; reflexivity.
Qed.

(** An interval of zero units runs every second. *)
Example zero_interval_is_one_second :
  job_trigger
    <$> jobs (remind_explicit cron_checks timedelta_in_range dumps_empty "42" "stretch"
                "days" 0 (startup [] 100)).2 !! "reminder-1"
  = Some (IntervalTrigger seconds 1).
Proof. vm_compute. reflexivity. Qed.

(** An id of twenty digits is an integer but no 64-bit one: the database
    refuses it and nothing but the answer changes. *)
Example delete_reminder_refused_id :
  delete_reminder_command "42" "/delete_reminder 99999999999999999999"
    (startup [MkTaskRow 1 1 "reminder" (Some "{}") (Some "RRULE:FREQ=DAILY;INTERVAL=1") 1]
       100)
  = (Ok tt,
     set_outbox
       (λ o, (o ++ [("42", "⚠️ Could not delete reminder 99999999999999999999: "
                             +:+ "Python int too large to convert to SQLite INTEGER")])%list)
       (startup [MkTaskRow 1 1 "reminder" (Some "{}") (Some "RRULE:FREQ=DAILY;INTERVAL=1") 1]
          100)).
Proof. vm_compute. reflexivity. Qed.

(** On the first day of 2025 an order in 80000000 hours lies past the year
    9999: the handler raises and leaves everything as it was.  ([pretty]
    stands in for [isoformat], which is never reached.) *)
Example once_order_past_last_date :
  remind_once_order cron_checks timedelta_in_range dumps_empty pretty "42" "milk" "corner shop"
    "hours" 80000000 (startup [] 63871286400)
  = (Raise OverflowError, startup [] 63871286400).
Proof. vm_compute. reflexivity. Qed.

(** ** The instance [cron_checks] *)

Lemma cron_checks_any_day h m :
  0 ≤ h ≤ 23 → 0 ≤ m ≤ 59 → cron_checks "*" h m = true.
Proof.
  intros Hh Hm. unfold cron_checks. cbn [String.eqb Ascii.eqb Bool.eqb orb andb].
  rewrite !andb_true_iff, !Z.leb_le. lia.
Qed.

Lemma cron_checks_in_range d h m :
  cron_checks d h m = true → 0 ≤ h ≤ 23 ∧ 0 ≤ m ≤ 59.
Proof. unfold cron_checks. rewrite !andb_true_iff, !Z.leb_le. lia. Qed.

Lemma cron_checks_refuses_codes d h m :
  d ∈ rrule_day_codes → cron_checks d h m = false.
Proof.
  unfold rrule_day_codes. rewrite !elem_of_cons, elem_of_nil.
  intros H. destruct_or!; try done; subst d; reflexivity.
Qed.

(** ** Witnesses: the theorems at concrete inputs *)


Lemma unknown_freq_falls_back_to_once_witness :
  parse_rrule_to_interval_kwargs cron_checks "RRULE:FREQ=YEARLY;INTERVAL=2" = Ok None
  ∧ installs 7 JNull (DateTrigger 160) (startup [] 100)
      (schedule_job_for_task cron_checks timedelta_in_range 7 JNull
         "RRULE:FREQ=YEARLY;INTERVAL=2" (startup [] 100)).
Proof.
  apply (unknown_freq_falls_back_to_once cron_checks timedelta_in_range 7 JNull
           "RRULE:FREQ=YEARLY;INTERVAL=2" "YEARLY" (startup [] 100)).
  - reflexivity.
  - apply (bool_decide_unpack _). vm_compute. exact I.
  - reflexivity.
  - reflexivity.
  - reflexivity.
Defined.

Lemma interval_rule_period_witness :
  parse_rrule_to_interval_kwargs cron_checks "RRULE:FREQ=DAILY;INTERVAL=2"
  = Ok (Some (PKwargs days 2)).
Proof. apply (interval_rule_period cron_checks DAILY 2). lia. Defined.

Lemma by_rule_resolves_to_cron_witness :
  parse_rrule_to_interval_kwargs cron_checks "RRULE:FREQ=DAILY;BYHOUR=7"
  = Ok (Some (PCron (MkCron "*" 7 0)))
  ∧ installs 7 JNull (CronTrigger (MkCron "*" 7 0)) (startup [] 100)
      (schedule_job_for_task cron_checks timedelta_in_range 7 JNull
         "RRULE:FREQ=DAILY;BYHOUR=7" (startup [] 100)).
Proof.
  destruct (by_rule_resolves_to_cron cron_checks timedelta_in_range 7 JNull
              "RRULE:FREQ=DAILY;BYHOUR=7" (startup [] 100)
              cron_checks_any_day cron_checks_in_range) as [Hfwd _].
  destruct (Hfwd 1 7 0) as (Hparse & Hjob & _); try reflexivity; try lia.
  split; [exact Hparse | exact Hjob].
Defined.

Lemma once_rule_fires_in_60s_witness :
  ∃ w', schedule_job_for_task cron_checks timedelta_in_range 7 JNull
          "RRULE:FREQ=ONCE;RUN_AT=2025-01-01T10:00:00" (startup [] 100)
        = (Ok true, w')
        ∧ jobs w' !! job_id_of 7 = Some (MkJob (DateTrigger 160) JNull)
        ∧ ∀ id, id ≠ job_id_of 7 → jobs w' !! id = jobs (startup [] 100) !! id.
Proof.
  apply (once_rule_fires_in_60s cron_checks timedelta_in_range 7 JNull
           "RRULE:FREQ=ONCE;RUN_AT=2025-01-01T10:00:00" (startup [] 100)).
  reflexivity.
Defined.

Lemma unprefixed_rule_is_unparseable_witness :
  parse_rrule_to_interval_kwargs cron_checks "FREQ=DAILY;INTERVAL=2" = Ok None
  ∧ installs 7 JNull (DateTrigger 160) (startup [] 100)
      (schedule_job_for_task cron_checks timedelta_in_range 7 JNull "FREQ=DAILY;INTERVAL=2"
         (startup [] 100)).
Proof.
  apply (unprefixed_rule_is_unparseable cron_checks timedelta_in_range 7 JNull
           "FREQ=DAILY;INTERVAL=2" (startup [] 100)).
  right. reflexivity.
Defined.

Lemma schedule_never_raises_witness :
  ∃ (b : bool) (w' : World),
    schedule_job_for_task cron_checks timedelta_in_range 7 JNull "every day at nine"
      (startup [] 100) = (Ok b, w')
    ∧ b = true
    ∧ jobs w' !! job_id_of 7 = Some (MkJob (DateTrigger 160) JNull).
Proof.
  destruct (schedule_never_raises cron_checks timedelta_in_range 7 JNull "every day at nine"
              (startup [] 100)) as (b & w' & Hrun & _ & _ & Hfallback & _).
  exists b, w'. split; [exact Hrun|]. apply Hfallback. right. reflexivity.
Defined.

(** ** Witnesses for the further properties *)

Lemma bad_interval_voids_rule_witness :
  parse_rrule_to_interval_kwargs cron_checks "RRULE:FREQ=DAILY;BYHOUR=9;INTERVAL=two" = Ok None
  ∧ installs 7 JNull (DateTrigger 160) (startup [] 100)
      (schedule_job_for_task cron_checks timedelta_in_range 7 JNull
         "RRULE:FREQ=DAILY;BYHOUR=9;INTERVAL=two" (startup [] 100)).
Proof.
  apply (bad_interval_voids_rule cron_checks timedelta_in_range 7 JNull
           "RRULE:FREQ=DAILY;BYHOUR=9;INTERVAL=two" "TWO" ValueError (startup [] 100)).
  - reflexivity.
  - reflexivity.
Defined.

Lemma bare_rule_means_every_minute_witness :
  parse_rrule_to_interval_kwargs cron_checks "RRULE:COUNT=3" = Ok (Some (PKwargs minutes 1)).
Proof.
  apply (bare_rule_means_every_minute cron_checks "RRULE:COUNT=3"); reflexivity.
Defined.

Lemma plan_without_rule_stored_minutely_witness :
  ∃ w', persist_task_and_schedule cron_checks timedelta_in_range dumps_empty "42"
          (MkPlan None (Some "stretch") None None None None None None) (startup [] 100)
        = (Ok (Some 1), w')
        ∧ row_schedule_rule <$> last (task w')
          = Some (Some "RRULE:FREQ=MINUTELY;INTERVAL=1")
        ∧ jobs w' !! job_id_of 1
          = Some (MkJob (DateTrigger 160)
                    (internal_of "42"
                       (MkPlan None (Some "stretch") None None None None None None))).
Proof.
  apply (plan_without_rule_stored_minutely cron_checks timedelta_in_range dumps_empty "42"
           (MkPlan None (Some "stretch") None None None None None None) (startup [] 100)).
  reflexivity.
Defined.

Lemma explicit_rule_round_trip_witness :
  explicit_rrule "hours" 2 = interval_rule HOURLY 2
  ∧ parse_rrule_to_interval_kwargs cron_checks (explicit_rrule "hours" 2)
    = Ok (Some (PKwargs hours 2)).
Proof.
  apply (explicit_rule_round_trip cron_checks "hours" HOURLY 2); [|lia].
  unfold explicit_units. do 5 apply list_elem_of_further. apply list_elem_of_here.
Defined.

Lemma live_minute_hour_reminder_is_one_shot_witness :
  ∃ w', remind_explicit cron_checks timedelta_in_range dumps_empty "42" "drink water" "hours" 2
          (startup [] 100) = (Ok tt, w')
        ∧ row_schedule_rule <$> last (task w') = Some (Some (interval_rule HOURLY 2))
        ∧ job_trigger <$> jobs w' !! job_id_of 1 = Some (DateTrigger 160)
        ∧ outbox w'
          = [("42", scheduled_message 1);
             ("42", "✅ Created reminder (task id=" +:+ pretty 1
                      +:+ "). I’ll remind you to " +:+ "drink water"
                      +:+ " per the schedule.")].
Proof.
  apply (live_minute_hour_reminder_is_one_shot cron_checks timedelta_in_range dumps_empty
           "42" "drink water" "hours" HOURLY 2 (startup [] 100)); [|by right|lia].
  unfold explicit_units. do 5 apply list_elem_of_further. apply list_elem_of_here.
Defined.

Lemma live_second_day_reminder_witness :
  ∃ w', remind_explicit cron_checks timedelta_in_range dumps_empty "42" "stretch" "days" 3
          (startup [] 100) = (Ok tt, w')
        ∧ row_schedule_rule <$> last (task w') = Some (Some (interval_rule DAILY 3))
        ∧ (job_trigger <$> jobs w' !! job_id_of 1 = Some (IntervalTrigger days 3)
           ∧ last (outbox w')
             = Some ("42", "✅ Created reminder (task id=" +:+ pretty 1
                             +:+ "). I’ll remind you to " +:+ "stretch"
                             +:+ " per the schedule.")).
Proof.
  apply (live_second_day_reminder cron_checks timedelta_in_range dumps_empty
           "42" "stretch" "days" DAILY 3 (startup [] 100)); [|by right|lia].
  unfold explicit_units. do 7 apply list_elem_of_further. apply list_elem_of_here.
Defined.

Lemma recurring_order_weeks_become_daily_witness :
  recurring_order_rrule "weeks" 2 = "RRULE:FREQ=DAILY;INTERVAL=1"
  ∧ parse_rrule_to_interval_kwargs cron_checks (recurring_order_rrule "weeks" 2)
    = Ok (Some (PKwargs days 1)).
Proof.
  apply (recurring_order_weeks_become_daily cron_checks "weeks" 2).
  apply list_elem_of_further, list_elem_of_here.
Defined.

Lemma deleted_reminder_not_restored_witness :
  (∀ r, r ∈ task (delete_reminder_command "42" "/delete_reminder 1"
                    (startup [MkTaskRow 1 1 "reminder" (Some "{}")
                                (Some "RRULE:FREQ=DAILY;INTERVAL=1") 1] 100)).2 →
        row_id r = 1 → row_enabled r = 0)
  ∧ jobs (restore_saved_reminders_from_db cron_checks timedelta_in_range loads_empty
            (startup
               (task (delete_reminder_command "42" "/delete_reminder 1"
                        (startup [MkTaskRow 1 1 "reminder" (Some "{}")
                                    (Some "RRULE:FREQ=DAILY;INTERVAL=1") 1] 100)).2)
               200)).2 !! job_id_of 1 = None.
Proof.
  apply (deleted_reminder_not_restored cron_checks timedelta_in_range loads_empty
           "42" "/delete_reminder 1" "/delete_reminder" "1" [] 1
           (startup [MkTaskRow 1 1 "reminder" (Some "{}")
                       (Some "RRULE:FREQ=DAILY;INTERVAL=1") 1] 100) 200).
  - repeat constructor.
  - reflexivity.
  - reflexivity.
Defined.

Lemma delete_reminder_disables_and_unschedules_witness :
  ∃ w', delete_reminder_command "42" "/delete_reminder 5" (startup [] 100) = (Ok tt, w')
        ∧ jobs w' !! job_id_of 5 = None
        ∧ (∀ id, id ≠ job_id_of 5 → jobs w' !! id = jobs (startup [] 100) !! id)
        ∧ (∀ r, r ∈ task w' → row_id r = 5 → row_enabled r = 0)
        ∧ List.filter (λ r, negb (row_id r =? 5)) (task w')
          = List.filter (λ r, negb (row_id r =? 5)) (task (startup [] 100))
        ∧ length (task w') = length (task (startup [] 100))
        ∧ outbox w'
          = (outbox (startup [] 100)
             ++ [("42", "✅ Reminder *" +:+ pretty 5 +:+ "* deleted successfully.")])%list.
Proof.
  exact (delete_reminder_disables_and_unschedules "42" "/delete_reminder 5"
           "/delete_reminder" "5" [] 5 (startup [] 100) eq_refl eq_refl).
Defined.

Lemma wrap_pieces_rebuild_line_witness :
  foldr String.app "" (wrap 3 "buy fruits") = "buy fruits".
Proof. apply (wrap_pieces_rebuild_line 3 "buy fruits"). lia. Defined.

Lemma wrap_piece_lengths_witness :
  Forall (λ piece, (0 < String.length piece ≤ 3)%nat) (wrap 3 "buy fruits")
  ∧ length (wrap 3 "buy fruits") = ((String.length "buy fruits" + 3 - 1) / 3)%nat.
Proof. apply (wrap_piece_lengths 3 "buy fruits"). lia. Defined.

Lemma recovery_agrees_on_normal_rule_witness :
  job_trigger <$>
    jobs (restore_saved_reminders_from_db cron_checks timedelta_in_range loads_empty
            (startup
               (task (persist_task_and_schedule cron_checks timedelta_in_range dumps_empty "42"
                        (MkPlan None (Some "stretch") (Some "RRULE:FREQ=DAILY;INTERVAL=2")
                           None None None None None) (startup [] 100)).2)
               100)).2 !! job_id_of 1
  = job_trigger <$>
      jobs (persist_task_and_schedule cron_checks timedelta_in_range dumps_empty "42"
              (MkPlan None (Some "stretch") (Some "RRULE:FREQ=DAILY;INTERVAL=2")
                 None None None None None) (startup [] 100)).2 !! job_id_of 1.
Proof.
  apply (recovery_agrees_on_normal_rule cron_checks timedelta_in_range loads_empty dumps_empty
           "42" (MkPlan None (Some "stretch") (Some "RRULE:FREQ=DAILY;INTERVAL=2")
                   None None None None None)
           "RRULE:FREQ=DAILY;INTERVAL=2" (JObj []) (startup [] 100)).
  - reflexivity.
  - reflexivity.
  - reflexivity.
  - constructor.
Defined.

Lemma daily_summary_schedule_witness :
  ∃ w', email_summary_daily cron_checks timedelta_in_range dumps_empty "42" 10 30 (Some "pm")
          (startup [] 100) = (Ok tt, w')
        ∧ jobs w' !! job_id_of 1
          = Some (MkJob (CronTrigger (MkCron "*" 22 30))
                    (JObj [("plan", JStr "email_summary");
                           ("calls",
                             JArr [JObj [("tool", JStr "messaging.send_message");
                                         ("args",
                                           JObj [("chat_id", JStr "42");
                                                 ("text", JStr "Daily Gmail summary")])]])]))
        ∧ last (outbox w')
          = Some ("42",
                  "✅ Scheduled Gmail summary every day at " +:+ pad2 22 +:+ ":"
                    +:+ pad2 30 +:+ ". (task id=" +:+ pretty 1 +:+ ")").
Proof.
  apply (daily_summary_schedule cron_checks timedelta_in_range dumps_empty "42" 10 30 (Some "pm")
           (startup [] 100)); lia.
Defined.

Lemma weekly_summary_schedule_witness :
  ∃ w', email_summary_weekly cron_checks timedelta_in_range dumps_empty "42" "mon" 9 0 None
          (startup [] 100) = (Ok tt, w')
        ∧ ("mon", "MO") ∈ weekday_map
        ∧ "MO" ∈ rrule_day_codes
        ∧ row_schedule_rule <$> last (task w')
          = Some (Some "RRULE:FREQ=WEEKLY;BYDAY=MO;BYHOUR=9;BYMINUTE=0")
        ∧ job_trigger <$> jobs w' !! job_id_of 1 = Some (DateTrigger 160)
        ∧ last (outbox w')
          = Some ("42",
                  "✅ Scheduled weekly Gmail summary on " +:+ PyStr.capitalize "mon"
                    +:+ " at " +:+ pad2 9 +:+ ":" +:+ pad2 0
                    +:+ ". (task id=" +:+ pretty 1 +:+ ")").
Proof.
  apply (weekly_summary_schedule cron_checks timedelta_in_range dumps_empty "42" "mon" 9 0 None
           (startup [] 100)); [|  |lia|lia].
  - intros d h m. apply cron_checks_refuses_codes.
  - unfold weekday_map. cbn. apply list_elem_of_further, list_elem_of_here.
Defined.

Lemma delete_reminder_rejects_bad_argument_witness :
  delete_reminder_command "42" "/delete_reminder soon" (startup [] 100)
  = (Ok tt, set_outbox
              (λ o, (o ++ [("42", "Please provide a valid numeric reminder ID.")])%list)
              (startup [] 100)).
Proof.
  apply (proj2 (delete_reminder_rejects_bad_argument "42" "/delete_reminder soon"
                  (startup [] 100))).
  - simpl. lia.
  - exists ValueError. reflexivity.
Defined.
